(** * pval: physical quantities and their dimension algebra

    A shallow embedding of [quantity.py] and [exceptions.py].

    A [Quantity] pairs a magnitude ([value]) with a tuple of seven
    exponents ([unit]), one per fundamental measurement.  The class is
    duck typed; here magnitudes and exponents range over the host
    language's two real number types, [int] (unbounded, [Z]) and [float]
    (IEEE 754 binary64, the standard library's [spec_float]). *)

From Stdlib Require Import ZArith QArith Qround List Bool String Ascii Lia.
From Stdlib Require Import Floats.SpecFloat DecimalString.
Import ListNotations.
Local Open Scope Z_scope.

(** ** Host numbers *)

Module Py.

Definition prec : Z := 53.
Definition emax : Z := 1024.

Inductive number : Type :=
| PInt (z : Z)
| PFloat (f : spec_float).

(** The outcomes of [float.__truediv__] and friends that the host turns
    into exceptions are kept apart from the class's own errors below. *)
Inductive arith_error : Type :=
| ZeroDivision
| Overflow.

Definition is_nan (f : spec_float) : bool :=
  match f with S754_nan => true | _ => false end.

Definition is_inf (f : spec_float) : bool :=
  match f with S754_infinity _ => true | _ => false end.

Definition float_is_zero (f : spec_float) : bool :=
  match f with S754_zero _ => true | _ => false end.

(** [float(z)]: the nearest binary64 value, ties to even; an integer that
    rounds beyond the largest float is an [OverflowError]. *)
Definition int_to_float (z : Z) : arith_error + spec_float :=
  let f := binary_normalize prec emax z 0 false in
  if is_inf f then inl Overflow else inr f.

(** [a / b] on two integers is the correctly rounded quotient (it is not
    computed by converting the operands first).  The division core of
    [SpecFloat] works on arbitrary positive mantissas, so the operands are
    passed as mantissas with exponent 0. *)
Definition int_true_divide (a b : Z) : arith_error + spec_float :=
  if b =? 0 then inl ZeroDivision
  else if a =? 0 then inr (S754_zero (b <? 0))
  else
    let f := SFdiv prec emax
               (S754_finite (a <? 0) (Z.to_pos (Z.abs a)) 0)
               (S754_finite (b <? 0) (Z.to_pos (Z.abs b)) 0) in
    if is_inf f then inl Overflow else inr f.

(** Exact comparison of a float with an integer, as the host compares an
    [int] with a [float]: no conversion, no rounding. *)
Definition float_int_compare (f : spec_float) (z : Z) : option comparison :=
  match f with
  | S754_nan => None
  | S754_infinity s => Some (if s then Lt else Gt)
  | S754_zero _ => Some (0 ?= z)
  | S754_finite s m e =>
      let sm := if s then Z.neg m else Z.pos m in
      Some (if 0 <=? e then sm * 2 ^ e ?= z else sm ?= z * 2 ^ (- e))
  end.

Definition py_compare (x y : number) : option comparison :=
  match x, y with
  | PInt a, PInt b => Some (a ?= b)
  | PFloat f, PFloat g => SFcompare f g
  | PFloat f, PInt b => float_int_compare f b
  | PInt a, PFloat g => option_map CompOpp (float_int_compare g a)
  end.

Definition py_eq (x y : number) : bool :=
  match py_compare x y with Some Eq => true | _ => false end.

Definition py_ne (x y : number) : bool := negb (py_eq x y).

Definition py_lt (x y : number) : bool :=
  match py_compare x y with Some Lt => true | _ => false end.

Definition py_gt (x y : number) : bool :=
  match py_compare x y with Some Gt => true | _ => false end.

(** Truth value of a number: [False] exactly for [0], [0.0] and [-0.0]. *)
Definition py_bool (x : number) : bool :=
  match x with
  | PInt z => negb (z =? 0)
  | PFloat f => negb (float_is_zero f)
  end.

Definition py_neg (x : number) : number :=
  match x with
  | PInt z => PInt (- z)
  | PFloat f => PFloat (SFopp f)
  end.

(** Mixed arithmetic converts the integer operand to [float] first. *)
Definition as_float (x : number) : arith_error + spec_float :=
  match x with
  | PInt z => int_to_float z
  | PFloat f => inr f
  end.

Definition float_binop (op : spec_float -> spec_float -> spec_float)
    (x y : number) : arith_error + number :=
  match as_float x with
  | inl e => inl e
  | inr f =>
      match as_float y with
      | inl e => inl e
      | inr g => inr (PFloat (op f g))
      end
  end.

Definition py_add (x y : number) : arith_error + number :=
  match x, y with
  | PInt a, PInt b => inr (PInt (a + b))
  | _, _ => float_binop (SFadd prec emax) x y
  end.

Definition py_sub (x y : number) : arith_error + number :=
  match x, y with
  | PInt a, PInt b => inr (PInt (a - b))
  | _, _ => float_binop (SFsub prec emax) x y
  end.

Definition py_mul (x y : number) : arith_error + number :=
  match x, y with
  | PInt a, PInt b => inr (PInt (a * b))
  | _, _ => float_binop (SFmul prec emax) x y
  end.

(** [x / y]: always a float; a zero divisor raises, also for floats. *)
Definition py_truediv (x y : number) : arith_error + number :=
  match x, y with
  | PInt a, PInt b =>
      match int_true_divide a b with
      | inl e => inl e
      | inr f => inr (PFloat f)
      end
  | _, _ =>
      match as_float x with
      | inl e => inl e
      | inr f =>
          match as_float y with
          | inl e => inl e
          | inr g =>
              if float_is_zero g then inl ZeroDivision
              else inr (PFloat (SFdiv prec emax f g))
          end
      end
  end.

Definition py_le (x y : number) : bool :=
  match py_compare x y with Some (Lt | Eq) => true | _ => false end.

Definition py_ge (x y : number) : bool :=
  match py_compare x y with Some (Gt | Eq) => true | _ => false end.

Definition py_abs (x : number) : number :=
  match x with
  | PInt z => PInt (Z.abs z)
  | PFloat f => PFloat (SFabs f)
  end.

(** *** Floor division

    On two integers [//] is the floor of the quotient.  On floats the host
    computes it from the C library's [fmod], which is exact: the remainder
    of the truncated division of the two values, with the sign of the
    dividend. *)

Definition float_1 : spec_float := S754_finite false 4503599627370496 (-52).
Definition float_half : spec_float := S754_finite false 4503599627370496 (-53).

Definition sign_bit (f : spec_float) : bool :=
  match f with
  | S754_zero s | S754_infinity s | S754_finite s _ _ => s
  | S754_nan => false
  end.

Definition float_negative (f : spec_float) : bool :=
  SFltb f (S754_zero false).

Definition fmod (x y : spec_float) : spec_float :=
  match x, y with
  | S754_nan, _ | _, S754_nan => S754_nan
  | S754_infinity _, _ => S754_nan
  | _, S754_zero _ => S754_nan
  | S754_zero _, _ => x
  | S754_finite _ _ _, S754_infinity _ => x
  | S754_finite sx mx ex, S754_finite sy my ey =>
      let e := Z.min ex ey in
      let r := Z.rem (Z.pos mx * 2 ^ (ex - e)) (Z.pos my * 2 ^ (ey - e)) in
      if r =? 0 then S754_zero sx
      else binary_normalize prec emax (cond_Zopp sx r) e false
  end.

(** The C library's [floor]; the result of flooring a positive fraction
    is [+0.0]. *)
Definition floor (f : spec_float) : spec_float :=
  match f with
  | S754_finite s m e =>
      if 0 <=? e then f
      else
        let z := cond_Zopp s (Z.pos m) / 2 ^ (- e) in
        if z =? 0 then S754_zero s else binary_normalize prec emax z 0 false
  | _ => f
  end.

(** The quotient part of the host's [float] floor division and modulo,
    for a nonzero divisor [wx]. *)
Definition float_floor_div (vx wx : spec_float) : spec_float :=
  let md := fmod vx wx in
  let div := SFdiv prec emax (SFsub prec emax vx md) wx in
  let div :=
    if negb (float_is_zero md)
       && negb (Bool.eqb (float_negative wx) (float_negative md))
    then SFsub prec emax div float_1
    else div in
  if negb (float_is_zero div) then
    let fl := floor div in
    if SFltb float_half (SFsub prec emax div fl)
    then SFadd prec emax fl float_1
    else fl
  else S754_zero (sign_bit (SFdiv prec emax vx wx)).

Definition py_floordiv (x y : number) : arith_error + number :=
  match x, y with
  | PInt a, PInt b =>
      if b =? 0 then inl ZeroDivision else inr (PInt (a / b))
  | _, _ =>
      match as_float x with
      | inl e => inl e
      | inr f =>
          match as_float y with
          | inl e => inl e
          | inr g =>
              if float_is_zero g then inl ZeroDivision
              else inr (PFloat (float_floor_div f g))
          end
      end
  end.

End Py.

(** ** Text of a number

    [str(x)], which the f-strings of [__str__] apply to the magnitude and
    to the exponents.  For an [int] it is the decimal numeral; the host
    refuses to print an int of more than 4300 digits ([ValueError]), a
    cap that is left out here, so what is proved about a rendering is
    stated for ints within it.  For
    a [float] it is the host's [repr]: the shortest decimal digit string
    that rounds back to the same float, laid out in positional notation
    unless the decimal point falls outside [-4 < decpt <= 16]. *)

Module Repr.
Import Py.

Definition str_int (z : Z) : string := NilZero.string_of_int (Z.to_int z).

Definition pow2Q (e : Z) : Q :=
  if 0 <=? e then inject_Z (2 ^ e) else 1 # Z.to_pos (2 ^ (- e)).

Definition pow10Q (e : Z) : Q :=
  if 0 <=? e then inject_Z (10 ^ e) else 1 # Z.to_pos (10 ^ (- e)).

(** The largest [E] with [10 ^ E <= x], searched upwards from [E]. *)
Fixpoint floor_log10 (fuel : nat) (x : Q) (E : Z) : Z :=
  match fuel with
  | O => E
  | S fuel' =>
      if Qle_bool (pow10Q (E + 1)) x then floor_log10 fuel' x (E + 1) else E
  end.

Definition Qlt_bool (a b : Q) : bool := negb (Qle_bool b a).

(** Digit generation.  [x] is the float's value, [lo] and [hi] the
    midpoints to its neighbours, [even] whether its mantissa is even (the
    midpoints then round to [x]).  With [k] digits the two candidates are
    [dlo * 10^p] and [(dlo + 1) * 10^p]; the first [k] at which one of
    them rounds back to [x] decides.  Returns the digits as an integer
    together with the power of ten. *)
Fixpoint shortest_digits (fuel : nat) (k : Z) (x lo hi : Q) (even : bool)
    (E : Z) : Z * Z :=
  let p := E + 1 - k in
  let u := pow10Q p in
  let dlo := Qfloor (x / u)%Q in
  let L := (inject_Z dlo * u)%Q in
  let H := (inject_Z (dlo + 1) * u)%Q in
  let nearest :=
    match (inject_Z 2 * (x - L) ?= u)%Q with
    | Gt => dlo + 1
    | Eq => if Z.odd dlo then dlo + 1 else dlo
    | Lt => dlo
    end in
  match fuel with
  | O => (nearest, p)
  | S fuel' =>
      if Qeq_bool H hi && even then
        (if Qlt_bool L lo then dlo + 1 else dlo, p)
      else if Qlt_bool lo L || (Qeq_bool lo L && even) then
        (if Qeq_bool x L then dlo
         else if Qlt_bool H hi then nearest else dlo, p)
      else if Qlt_bool H hi then (dlo + 1, p)
      else shortest_digits fuel' (k + 1) x lo hi even E
  end.

Fixpoint strip_zeros (fuel : nat) (d p : Z) : Z * Z :=
  match fuel with
  | O => (d, p)
  | S fuel' =>
      if (d mod 10 =? 0) && negb (d =? 0) then strip_zeros fuel' (d / 10) (p + 1)
      else (d, p)
  end.

(** Digits and position of the decimal point ([0.d1d2... * 10^decpt]) of
    the positive float [m * 2^e]. *)
Definition dtoa (m : positive) (e : Z) : string * Z :=
  let x := (inject_Z (Z.pos m) * pow2Q e)%Q in
  let hi := (inject_Z (2 * Z.pos m + 1) * pow2Q (e - 1))%Q in
  let lo :=
    if (Z.pos m =? 2 ^ (prec - 1)) && (emin prec emax <? e)
    then (inject_Z (4 * Z.pos m - 1) * pow2Q (e - 2))%Q
    else (inject_Z (2 * Z.pos m - 1) * pow2Q (e - 1))%Q in
  let E := floor_log10 700 x (-324) in
  let '(d, p) := shortest_digits 17 1 x lo hi (Z.even (Z.pos m)) E in
  let '(d, p) := strip_zeros 20 d p in
  let ds := str_int d in
  (ds, Z.of_nat (String.length ds) + p).

Fixpoint zeros (n : nat) : string :=
  match n with
  | O => EmptyString
  | S n' => String "0" (zeros n')
  end.

Definition two_digits (z : Z) : string :=
  if z <? 10 then String "0" (str_int z) else str_int z.

Definition layout (ds : string) (decpt : Z) : string :=
  let nd := Z.of_nat (String.length ds) in
  if (decpt <=? -4) || (16 <? decpt) then
    let ex := decpt - 1 in
    let mant :=
      match ds with
      | String c EmptyString => ds
      | String c rest => String c (String "." rest)
      | EmptyString => ds
      end in
    let sign := if (ex <? 0)%Z then "-"%string else "+"%string in
    (mant ++ "e" ++ sign ++ two_digits (Z.abs ex))%string
  else if decpt <=? 0 then
    let pad := zeros (Z.to_nat (- decpt)) in
    ("0." ++ pad ++ ds)%string
  else if nd <=? decpt then
    let pad := zeros (Z.to_nat (decpt - nd)) in
    (ds ++ pad ++ ".0")%string
  else
    let whole := substring 0 (Z.to_nat decpt) ds in
    let frac := substring (Z.to_nat decpt) (Z.to_nat (nd - decpt)) ds in
    (whole ++ "." ++ frac)%string.

Definition float_repr (f : spec_float) : string :=
  match f with
  | S754_nan => "nan"%string
  | S754_infinity s => (if s then "-inf" else "inf")%string
  | S754_zero s => (if s then "-0.0" else "0.0")%string
  | S754_finite s m e =>
      let '(ds, decpt) := dtoa m e in
      ((if s then "-" else "") ++ layout ds decpt)%string
  end.

Definition str (x : number) : string :=
  match x with
  | PInt z => str_int z
  | PFloat f => float_repr f
  end.

End Repr.

(** ** Values, exceptions and results *)

Import Py.

(** An instance of the class: the two slots [value] and [unit]. *)
Record Quantity : Type := mkQuantity {
  value : number;
  unit : list number
}.

(** The values a method can meet as its [other] argument, or as an
    element of a tuple.  [OObject a] is an instance of an unrelated class
    whose only attribute of interest is [unit] (absent when [a] is
    [None]); [ORaising e] is an instance of an unrelated class whose
    [unit] is a property that raises [e] when it is read.

    [exceptions.py]: [IncompatibleUnits] keeps, for each operand, its
    [unit] attribute when it has one and the word "dimensionless"
    ([None] here) otherwise.  [KeyboardInterrupt] and [SystemExit] are
    the host's errors that derive from [BaseException] only. *)
#[warnings="-register-all"]
Inductive pyobj : Type :=
| ONone
| ONum (x : number)
| OStr (s : string)
| OTuple (items : list pyobj)
| OQuantity (q : Quantity)
| OObject (unit_attr : option pyobj)
| ORaising (e : exn)
with exn : Type :=
| TypeError (msg : string)
| AttributeError (attr : string)
| ZeroDivisionError
| OverflowError
| IncompatibleUnits (a_unit b_unit : option pyobj)
| KeyboardInterrupt
| SystemExit.

(** What [except Exception] catches: every error above but the two that
    derive from [BaseException] directly ([IncompatibleUnits] derives
    from [Exception] through [TypeError]). *)
Definition is_Exception (e : exn) : bool :=
  match e with
  | TypeError _ | AttributeError _ | ZeroDivisionError | OverflowError
  | IncompatibleUnits _ _ => true
  | KeyboardInterrupt | SystemExit => false
  end.

Inductive result (A : Type) : Type :=
| Ok (a : A)
| Raise (e : exn).
Arguments Ok {A} a.
Arguments Raise {A} e.

Definition bind {A B : Type} (r : result A) (k : A -> result B) : result B :=
  match r with
  | Ok a => k a
  | Raise e => Raise e
  end.

Declare Scope py_scope.
Delimit Scope py_scope with py.
Notation "x <- r ;; k" := (bind r (fun x => k))
  (at level 61, r at next level, right associativity) : py_scope.
Local Open Scope py_scope.

Definition lift {A : Type} (r : arith_error + A) : result A :=
  match r with
  | inr a => Ok a
  | inl ZeroDivision => Raise ZeroDivisionError
  | inl Overflow => Raise OverflowError
  end.

(** [tuple(f(t) for t in unit)] where [f] may raise. *)
Fixpoint map_result {A B : Type} (f : A -> result B) (l : list A)
    : result (list B) :=
  match l with
  | [] => Ok []
  | a :: l' => b <- f a ;; bs <- map_result f l' ;; Ok (b :: bs)
  end.

(** [tuple(f(a, b) for a, b in zip(u, v))]: [zip] stops at the shorter. *)
Fixpoint zip_result {A B C : Type} (f : A -> B -> result C)
    (u : list A) (v : list B) : result (list C) :=
  match u, v with
  | a :: u', b :: v' => c <- f a b ;; cs <- zip_result f u' v' ;; Ok (c :: cs)
  | _, _ => Ok []
  end.

(** *** Attribute access and comparison of values *)

Definition as_tuple (u : list number) : pyobj := OTuple (map ONum u).

Definition getattr_unit (o : pyobj) : result pyobj :=
  match o with
  | OQuantity q => Ok (as_tuple (unit q))
  | OObject (Some a) => Ok a
  | ORaising e => Raise e
  | _ => Raise (AttributeError "unit")
  end.

Definition getattr_value (o : pyobj) : result number :=
  match o with
  | OQuantity q => Ok (value q)
  | _ => Raise (AttributeError "value")
  end.

(** [o.unit if hasattr(o, "unit") else "dimensionless"], as the
    exception class describes an operand: [hasattr] answers [False] on an
    [AttributeError] and lets every other error through. *)
Definition description (o : pyobj) : result (option pyobj) :=
  match getattr_unit o with
  | Ok u => Ok (Some u)
  | Raise (AttributeError _) => Ok None
  | Raise e => Raise e
  end.

(** [raise IncompatibleUnits(a, b)]: building the exception reads both
    descriptions, the one of [a] first. *)
Definition raise_IncompatibleUnits {A : Type} (a b : pyobj) : result A :=
  a_unit <- description a ;;
  b_unit <- description b ;;
  Raise (IncompatibleUnits a_unit b_unit).

(** [x == o] for a number [x].  Against a [Quantity] the host falls back
    to the reflected [Quantity.__eq__], whose compatibility assertion
    fails because a number has no [unit]. *)
Definition num_eq (x : number) (o : pyobj) : result bool :=
  match o with
  | ONum y => Ok (py_eq x y)
  | OQuantity q => raise_IncompatibleUnits o (ONum x)
  | _ => Ok false
  end.

(** Tuple comparison: items are compared in order up to the first pair
    that differs; when one tuple runs out, the lengths decide.  (The host
    also treats an item as equal to itself without calling [==]; numbers
    here carry no identity, which only shows on a NaN compared with
    itself.) *)
Fixpoint items_eq (u : list number) (items : list pyobj) : result bool :=
  match u, items with
  | [], [] => Ok true
  | x :: u', y :: items' =>
      b <- num_eq x y ;;
      if b then items_eq u' items' else Ok false
  | _, _ => Ok false
  end.

(** [u == o] for the tuple [u]. *)
Definition tuple_eq (u : list number) (o : pyobj) : result bool :=
  match o with
  | OTuple items => items_eq u items
  | OQuantity q => raise_IncompatibleUnits o (as_tuple u)
  | _ => Ok false
  end.

(** ** The class [Quantity] *)

Module Quantity.

(** The keyword-only exponents [m, kg, s, C, K, cand, mol]. *)
Record kwargs : Type := mkKwargs {
  m : number; kg : number; s : number; C : number;
  K : number; cand : number; mol : number
}.

Definition defaults : kwargs :=
  mkKwargs (PInt 0) (PInt 0) (PInt 0) (PInt 0) (PInt 0) (PInt 0) (PInt 0).

Definition exponents (kw : kwargs) : list number :=
  [m kw; kg kw; s kw; C kw; K kw; cand kw; mol kw].

(** The positional [unit] argument: absent, a [Quantity], or a sequence
    of exponents. *)
Inductive unit_arg : Type :=
| UnitNone
| UnitQuantity (q : Quantity)
| UnitTuple (t : list number).

(** What [__new__] hands back: a fresh, uninitialised instance, or the
    bare [value] it was given. *)
Inductive allocation : Type :=
| Instance
| Bare (v : number).

Definition __new__ (value : number) (unit_ : unit_arg) (kw : kwargs)
    : allocation :=
  let u :=
    match unit_ with
    | UnitNone => exponents kw
    | UnitQuantity q => unit q
    | UnitTuple t => t
    end in
  match filter (fun t => py_ne t (PInt 0)) u with
  | _ :: _ => Instance
  | [] => Bare value
  end.

Definition __init__ (value_ : number) (unit_ : unit_arg) (kw : kwargs)
    : result Quantity :=
  match unit_ with
  | UnitNone => Ok {| unit := exponents kw; value := value_ |}
  | UnitQuantity q =>
      v <- lift (py_mul value_ (value q)) ;;
      Ok {| unit := unit q; value := v |}
  | UnitTuple t =>
      if (List.length t =? 7)%nat then Ok {| unit := t; value := value_ |}
      else Raise (TypeError "unit value must be Quantity of tuple of length 7")
  end.

(** The call [Quantity(value, unit, m=..., ...)]: the host runs [__new__]
    and runs [__init__] only on an instance of the class. *)
Definition construct (value_ : number) (unit_ : unit_arg) (kw : kwargs)
    : result pyobj :=
  match __new__ value_ unit_ kw with
  | Bare v => Ok (ONum v)
  | Instance => q <- __init__ value_ unit_ kw ;; Ok (OQuantity q)
  end.

(** [Quantity(v, unit=u)], as every method builds its result. *)
Definition make (v : number) (u : list number) : result pyobj :=
  construct v (UnitTuple u) defaults.

(** The body of the [try]: [self.unit == other.unit]. *)
Definition same_unit (self : Quantity) (other : pyobj) : result bool :=
  u <- getattr_unit other ;; tuple_eq (unit self) u.

Definition compatible (self : Quantity) (other : pyobj) : result bool :=
  match same_unit self other with
  | Ok b => Ok b
  | Raise e => if is_Exception e then Ok false else Raise e
  end.

Definition assert_compatible (self : Quantity) (other : pyobj)
    : result Datatypes.unit :=
  b <- compatible self other ;;
  if negb b
  then raise_IncompatibleUnits (OQuantity self) other
  else Ok tt.

Definition __abs__ (self : Quantity) : result pyobj :=
  make (py_abs (value self)) (unit self).

Definition __add__ (self : Quantity) (other : pyobj) : result pyobj :=
  _ <- assert_compatible self other ;;
  w <- getattr_value other ;;
  v <- lift (py_add (value self) w) ;;
  make v (unit self).

Definition __radd__ := __add__.

Definition __neg__ (self : Quantity) : result pyobj :=
  make (py_neg (value self)) (unit self).

Definition __sub__ (self : Quantity) (other : pyobj) : result pyobj :=
  _ <- assert_compatible self other ;;
  w <- getattr_value other ;;
  v <- lift (py_sub (value self) w) ;;
  make v (unit self).

Definition __rsub__ (self : Quantity) (other : pyobj) : result pyobj :=
  _ <- assert_compatible self other ;;
  w <- getattr_value other ;;
  v <- lift (py_sub w (value self)) ;;
  make v (unit self).

(** The right operand of [*] and [/]: a [Quantity] or a plain number. *)
Inductive operand : Type :=
| Scalar (x : number)
| Qty (q : Quantity).

Definition __mul__ (self : Quantity) (other : operand) : result pyobj :=
  match other with
  | Qty o =>
      u <- zip_result (fun a b => lift (py_add a b)) (unit self) (unit o) ;;
      v <- lift (py_mul (value self) (value o)) ;;
      make v u
  | Scalar x =>
      v <- lift (py_mul (value self) x) ;;
      make v (unit self)
  end.

Definition __rmul__ := __mul__.

Definition invert (self : Quantity) : result pyobj :=
  let u := map py_neg (unit self) in
  v <- lift (py_truediv (PInt 1) (value self)) ;;
  make v u.

Definition __truediv__ (self : Quantity) (other : operand) : result pyobj :=
  match other with
  | Qty o =>
      u <- zip_result (fun a b => lift (py_sub a b)) (unit self) (unit o) ;;
      v <- lift (py_truediv (value self) (value o)) ;;
      make v u
  | Scalar x =>
      v <- lift (py_truediv (value self) x) ;;
      make v (unit self)
  end.

Definition __rtruediv__ (self : Quantity) (other : operand) : result pyobj :=
  match other with
  | Qty o =>
      u <- zip_result (fun a b => lift (py_sub b a)) (unit self) (unit o) ;;
      v <- lift (py_truediv (value o) (value self)) ;;
      make v u
  | Scalar x =>
      let u := map py_neg (unit self) in
      v <- lift (py_truediv x (value self)) ;;
      make v u
  end.

Definition __floordiv__ (self : Quantity) (other : operand) : result pyobj :=
  match other with
  | Qty o =>
      u <- zip_result (fun a b => lift (py_sub a b)) (unit self) (unit o) ;;
      v <- lift (py_floordiv (value self) (value o)) ;;
      make v u
  | Scalar x =>
      v <- lift (py_floordiv (value self) x) ;;
      make v (unit self)
  end.

Definition __rfloordiv__ (self : Quantity) (other : operand) : result pyobj :=
  match other with
  | Qty o =>
      u <- zip_result (fun a b => lift (py_sub b a)) (unit self) (unit o) ;;
      v <- lift (py_floordiv (value o) (value self)) ;;
      make v u
  | Scalar x =>
      let u := map py_neg (unit self) in
      v <- lift (py_floordiv x (value self)) ;;
      make v u
  end.

Section Power.
(** [x ** y] on magnitudes is left to the host (for floats it is the
    platform's [pow]); the exponents of the dimension are computed with
    [*] and [/] alone. *)
Variable power : number -> number -> result number.

Definition __pow__ (self : Quantity) (n : number) : result pyobj :=
  u <- map_result (fun t => lift (py_mul n t)) (unit self) ;;
  v <- power (value self) n ;;
  make v u.

Definition root (self : Quantity) (n : number) : result pyobj :=
  u <- map_result (fun t => lift (py_truediv t n)) (unit self) ;;
  r <- lift (py_truediv (PInt 1) n) ;;
  v <- power (value self) r ;;
  make v u.

Definition sqrt (self : Quantity) : result pyobj := root self (PInt 2).

(** [o.root(n)] on whatever a previous operation returned: a collapsed
    number has no such method. *)
Definition call_root (o : pyobj) (n : number) : result pyobj :=
  match o with
  | OQuantity q => root q n
  | _ => Raise (AttributeError "root")
  end.
End Power.

Definition __eq__ (self : Quantity) (other : pyobj) : result bool :=
  _ <- assert_compatible self other ;;
  w <- getattr_value other ;;
  if py_eq (value self) w
  then u <- getattr_unit other ;; tuple_eq (unit self) u
  else Ok false.

Definition __ne__ (self : Quantity) (other : pyobj) : result bool :=
  b <- __eq__ self other ;; Ok (negb b).

Definition __lt__ (self : Quantity) (other : pyobj) : result bool :=
  _ <- assert_compatible self other ;;
  w <- getattr_value other ;;
  Ok (py_lt (value self) w).

Definition __le__ (self : Quantity) (other : pyobj) : result bool :=
  _ <- assert_compatible self other ;;
  w <- getattr_value other ;;
  Ok (py_le (value self) w).

Definition __gt__ (self : Quantity) (other : pyobj) : result bool :=
  _ <- assert_compatible self other ;;
  w <- getattr_value other ;;
  Ok (py_gt (value self) w).

Definition __ge__ (self : Quantity) (other : pyobj) : result bool :=
  _ <- assert_compatible self other ;;
  w <- getattr_value other ;;
  Ok (py_ge (value self) w).

Definition __nonzero__ (self : Quantity) : bool :=
  if py_bool (value self) then true else false.

Definition __bool__ := __nonzero__.

Definition keys : list string :=
  ["m"; "kg"; "s"; "C"; "K"; "cand"; "mol"]%string.

Definition repr_term (ne : string * number) : string :=
  let '(n, e) := ne in (n ++ "=" ++ Repr.str e)%string.

Definition __repr__ (self : Quantity) : string :=
  ("Quantity(" ++ Repr.str (value self) ++ ","
   ++ String.concat ","
        (map repr_term
           (filter (fun ne => py_bool (snd ne)) (combine keys (unit self))))
   ++ ",)")%string.

Definition names : list string :=
  ["m"; "kg"; "s"; "C"; "K"; "cand"; "mol"]%string.

Definition num_term (ne : string * number) : string :=
  let '(n, e) := ne in
  if py_eq e (PInt 1) then n else (n ++ "^" ++ Repr.str e)%string.

Definition den_term (ne : string * number) : string :=
  let '(n, e) := ne in
  if py_eq e (PInt (-1)) then n else (n ++ "^" ++ Repr.str (py_neg e))%string.

Definition nonempty (t : string) : bool :=
  match t with EmptyString => false | _ => true end.

Definition __str__ (self : Quantity) : string :=
  let pairs := combine names (unit self) in
  let num := String.concat " "
    (map num_term (filter (fun ne => py_gt (snd ne) (PInt 0)) pairs)) in
  let den := String.concat " "
    (map den_term (filter (fun ne => py_lt (snd ne) (PInt 0)) pairs)) in
  let v := Repr.str (value self) in
  if nonempty num then
    if nonempty den then (v ++ "[" ++ num ++ "/" ++ den ++ "]")%string
    else (v ++ "[" ++ num ++ "]")%string
  else if nonempty den then (v ++ "[1/" ++ den ++ "]")%string
  else v.

End Quantity.

(** ** Observations on values *)

Import Quantity.

(** Python's [t == 0] on every exponent. *)
Definition all_zero (u : list number) : bool :=
  forallb (fun t => py_eq t (PInt 0)) u.

(** Component-wise [==] of two exponent tuples of the same length. *)
Fixpoint unit_eqb (u v : list number) : bool :=
  match u, v with
  | [], [] => true
  | x :: u', y :: v' => py_eq x y && unit_eqb u' v'
  | _, _ => false
  end.

(** The class invariant: an instance has seven exponents, not all zero. *)
Definition well_formed (q : Quantity) : Prop :=
  List.length (unit q) = 7%nat /\ all_zero (unit q) = false.

(** The magnitude of a result, whether it is an instance or a collapsed
    number. *)
Definition magnitude (o : pyobj) : option number :=
  match o with
  | ONum v => Some v
  | OQuantity q => Some (value q)
  | _ => None
  end.

(** [carries o u]: the result [o] stands for the dimension vector [u].
    An instance stores it; a collapsed number stands for the dimensionless
    vector only. *)
Definition carries (o : pyobj) (u : list number) : Prop :=
  match o with
  | OQuantity q => unit q = u
  | _ => all_zero u = true
  end.

Definition is_NaN (x : number) : bool :=
  match x with
  | PFloat f => is_nan f
  | PInt _ => false
  end.

(** Neither an infinity nor a NaN. *)
Definition finite (x : number) : bool :=
  match x with
  | PInt _ => true
  | PFloat (S754_zero _) | PFloat (S754_finite _ _ _) => true
  | PFloat _ => false
  end.

(** ** Sample quantities and derived operations *)

(** [Quantity(5, m=1)] and [Quantity(3, kg=1)]. *)
Definition length_m : Quantity :=
  {| value := PInt 5; unit := [PInt 1; PInt 0; PInt 0; PInt 0; PInt 0; PInt 0; PInt 0] |}.

Definition mass_kg : Quantity :=
  {| value := PInt 3; unit := [PInt 0; PInt 1; PInt 0; PInt 0; PInt 0; PInt 0; PInt 0] |}.

(** The float [1.0]. *)
Definition one : spec_float := S754_finite false 4503599627370496 (-52).

(** [Quantity(float("inf"), m=1)]. *)
Definition infinite_length : Quantity :=
  {| value := PFloat (S754_infinity false);
     unit := [PInt 1; PInt 0; PInt 0; PInt 0; PInt 0; PInt 0; PInt 0] |}.

(** [root(power(a, n), n)], with the host's [**] as [power]. *)
Definition root_of_power (power : number -> number -> result number)
    (a : Quantity) (n : number) : result pyobj :=
  p <- __pow__ power a n ;; call_root power p n.

(** A Python [int] that a float holds exactly. *)
Definition small_int (t : number) : bool :=
  match t with
  | PInt z => Z.abs z <? 2 ^ 53
  | PFloat _ => false
  end.

(** The float [0.1] and [Quantity(1, m=0.1)]. *)
Definition tenth : spec_float := S754_finite false 7205759403792794 (-56).

Definition fractional_length : Quantity :=
  {| value := PInt 1;
     unit := [PFloat tenth; PInt 0; PInt 0; PInt 0; PInt 0; PInt 0; PInt 0] |}.

(** The keyword arguments [m=1] and [s=1]. *)
Definition m_1 : kwargs :=
  mkKwargs (PInt 1) (PInt 0) (PInt 0) (PInt 0) (PInt 0) (PInt 0) (PInt 0).

Definition s_1 : kwargs :=
  mkKwargs (PInt 0) (PInt 0) (PInt 1) (PInt 0) (PInt 0) (PInt 0) (PInt 0).

(** [L = Quantity(10, m=1)] and [T = Quantity(2, s=1)]. *)
Definition L : Quantity := {| value := PInt 10; unit := exponents m_1 |}.
Definition T : Quantity := {| value := PInt 2; unit := exponents s_1 |}.

(** The float [5.0] and the quotient [L / T]. *)
Definition five : spec_float := S754_finite false 5629499534213120 (-50).

Definition speed : Quantity :=
  {| value := PFloat five;
     unit := [PInt 1; PInt 0; PInt (-1); PInt 0; PInt 0; PInt 0; PInt 0] |}.

(** [Quantity(10 ** 400, m=1)] and [Quantity(1.0, m=1)]. *)
Definition huge_length : Quantity :=
  {| value := PInt (10 ^ 400);
     unit := [PInt 1; PInt 0; PInt 0; PInt 0; PInt 0; PInt 0; PInt 0] |}.

Definition unit_length : Quantity :=
  {| value := PFloat one;
     unit := [PInt 1; PInt 0; PInt 0; PInt 0; PInt 0; PInt 0; PInt 0] |}.

(** A number as the host holds it: every float is a binary64 value,
    that is, its mantissa and exponent are in canonical form. *)
Definition host_number (x : number) : bool :=
  match x with
  | PInt _ => true
  | PFloat f => valid_binary prec emax f
  end.

(** A mantissa that has lost no bit to the right. *)
Definition exact_shr (z : Z) : shr_record :=
  {| shr_m := z; shr_r := false; shr_s := false |}.

(** [Quantity(5.0, m=1.0)]. *)
Definition float_length : Quantity :=
  {| value := PFloat five;
     unit := [PFloat one; PInt 0; PInt 0; PInt 0; PInt 0; PInt 0; PInt 0] |}.

(** ** Further observations *)

(** What a method may hand back: a bare number, or an instance that
    satisfies the class invariant. *)
Definition proper (o : pyobj) : Prop :=
  match o with
  | ONum _ => True
  | OQuantity q => well_formed q
  | _ => False
  end.

(** No exponent is a NaN. *)
Definition no_NaN (u : list number) : bool :=
  forallb (fun t => negb (is_NaN t)) u.


(** The exponents an instance stores; a collapsed number stores none. *)
Definition dimension_of (o : pyobj) : option (list number) :=
  match o with
  | OQuantity q => Some (unit q)
  | _ => None
  end.

(** [L.invert()]: the float [0.1] per metre. *)
Definition per_L : Quantity :=
  {| value := PFloat tenth;
     unit := [PInt (-1); PInt 0; PInt 0; PInt 0; PInt 0; PInt 0; PInt 0] |}.

(** An int the host is willing to print: at most 4300 digits. *)
Definition printable (x : number) : bool :=
  match x with
  | PInt z => Z.abs z <? 10 ^ 4300
  | PFloat _ => true
  end.

(** The error of [x / d] and of [x // d] for a zero [d].  An int and a
    float are both converted to [float] before the divisor is tested, so
    an int that has no float fails first. *)
Definition error_of_zero_division (x d : number) : exn :=
  match x, d with
  | PInt _, PFloat _ =>
      match as_float x with
      | inl _ => OverflowError
      | inr _ => ZeroDivisionError
      end
  | _, _ => ZeroDivisionError
  end.

(** Case analysis on each step of a method that returned. *)
Ltac bind_cases H :=
  repeat match type of H with
  | bind ?x _ = Ok _ => destruct x; cbn [bind] in H; [|discriminate H]
  end.

(** * Properties *)

(** ** Construction *)

Lemma filter_nonzero (u : list number) :
  filter (fun t => py_ne t (PInt 0)) u = [] <-> all_zero u = true.
Proof.
  unfold all_zero, py_ne.
  induction u as [|t u IH]; simpl.
  - tauto.
  - destruct (py_eq t (PInt 0)); simpl.
    + exact IH.
    + split; discriminate.
Qed.

Lemma new_collapse (v : number) (ua : unit_arg) (kw : kwargs) :
  __new__ v ua kw =
  if all_zero match ua with
              | UnitNone => exponents kw
              | UnitQuantity q => unit q
              | UnitTuple t => t
              end
  then Bare v else Instance.
Proof.
  unfold __new__.
  set (u := match ua with UnitNone => _ | UnitQuantity q => _ | UnitTuple t => t end).
  pose proof (filter_nonzero u) as H.
  destruct (filter _ u) as [|x l].
  - rewrite (proj1 H eq_refl). reflexivity.
  - destruct (all_zero u); [|reflexivity].
    destruct H as [_ H]. discriminate (H eq_refl).
Qed.

Lemma make_spec (v : number) (u : list number) :
  List.length u = 7%nat ->
  make v u = Ok (if all_zero u then ONum v else OQuantity {| value := v; unit := u |}).
Proof.
  intros Hlen. unfold make, construct. rewrite new_collapse.
  destruct (all_zero u); [reflexivity|].
  unfold __init__. rewrite Hlen. reflexivity.
Qed.

(** A vector of the wrong length that has a nonzero component is
    rejected. *)
Lemma make_wrong_length (v : number) (u : list number) :
  List.length u <> 7%nat -> all_zero u = false ->
  make v u = Raise (TypeError "unit value must be Quantity of tuple of length 7").
Proof.
  intros Hlen Hnz. unfold make, construct. rewrite new_collapse, Hnz.
  unfold __init__.
  destruct (Nat.eqb_spec (List.length u) 7); [contradiction|reflexivity].
Qed.

(** Every instance that the constructor returns satisfies the class
    invariant (given that a template [Quantity] does). *)
Lemma construct_well_formed (v : number) (ua : unit_arg) (kw : kwargs) (q : Quantity) :
  match ua with UnitQuantity t => well_formed t | _ => True end ->
  construct v ua kw = Ok (OQuantity q) -> well_formed q.
Proof.
  intros Ht. unfold construct. rewrite new_collapse.
  destruct ua as [|t|u]; cbn [__init__].
  - destruct (all_zero (exponents kw)) eqn:E; intros H; [discriminate H|].
    injection H as <-. split; [reflexivity|exact E].
  - destruct (all_zero (unit t)) eqn:E; intros H; [discriminate H|].
    destruct (py_mul v (value t)) as [[]|w]; cbn in H; try discriminate H.
    injection H as <-. split; [apply Ht|exact E].
  - destruct (all_zero u) eqn:E; intros H; [discriminate H|].
    destruct (Nat.eqb_spec (List.length u) 7) as [Hl|Hl]; cbn in H;
      [|discriminate H].
    injection H as <-. split; assumption.
Qed.

(** C1. Whatever the magnitude [v] and the seven exponents, given by
    keyword or as an explicit tuple: when every exponent equals zero the
    constructor returns the bare [v], a plain number and not an instance;
    when at least one exponent is not zero it returns an instance holding
    [v] and the seven exponents, in the order [m, kg, s, C, K, cand,
    mol]. *)
Theorem construct_collapses_iff_dimensionless
    (v e_m e_kg e_s e_C e_K e_cand e_mol : number) (kw' : kwargs) :
  let u := [e_m; e_kg; e_s; e_C; e_K; e_cand; e_mol] in
  let by_keyword :=
    construct v UnitNone (mkKwargs e_m e_kg e_s e_C e_K e_cand e_mol) in
  let by_tuple := construct v (UnitTuple u) kw' in
  ((forall t, In t u -> py_eq t (PInt 0) = true) ->
   by_keyword = Ok (ONum v) /\ by_tuple = Ok (ONum v)) /\
  ((exists t, In t u /\ py_ne t (PInt 0) = true) ->
   by_keyword = Ok (OQuantity {| value := v; unit := u |}) /\
   by_tuple = Ok (OQuantity {| value := v; unit := u |})) /\
  by_keyword = Ok (if all_zero u then ONum v
                   else OQuantity {| value := v; unit := u |}) /\
  by_tuple = by_keyword.
Proof.
  intros u by_keyword by_tuple.
  assert (K : by_keyword = Ok (if all_zero u then ONum v
                               else OQuantity {| value := v; unit := u |})).
  { unfold by_keyword, construct. rewrite new_collapse.
    change (exponents (mkKwargs e_m e_kg e_s e_C e_K e_cand e_mol)) with u.
    destruct (all_zero u); reflexivity. }
  assert (T : by_tuple = by_keyword).
  { rewrite K. unfold by_tuple, construct. rewrite new_collapse.
    destruct (all_zero u); reflexivity. }
  split; [|split; [|split; [exact K|exact T]]].
  - intros H. rewrite T, K.
    assert (Z : all_zero u = true) by (apply forallb_forall; exact H).
    rewrite Z. split; reflexivity.
  - intros (t & I & N). rewrite T, K.
    assert (Z : all_zero u = false).
    { destruct (all_zero u) eqn:E; [|reflexivity].
      unfold all_zero in E. rewrite forallb_forall in E.
      unfold py_ne in N. rewrite (E t I) in N. discriminate N. }
    rewrite Z. split; reflexivity.
Qed.

(** C4 (the input on which the code departs from the claim). A vector of
    three zeros has the wrong length, yet the constructor returns the
    magnitude: [__new__] collapses before [__init__] checks the length. *)
Theorem construct_short_zero_vector_returns :
  construct (PInt 5) (UnitTuple [PInt 0; PInt 0; PInt 0]) defaults
  = Ok (ONum (PInt 5)).
Proof. reflexivity. Qed.

(** ** Truth value *)

Lemma py_bool_ne_zero (x : number) : py_bool x = py_ne x (PInt 0).
Proof.
  unfold py_ne, py_eq. destruct x as [z|f]; cbn.
  - destruct (Z.eqb_spec z 0) as [->|Hz]; [reflexivity|].
    destruct (Z.compare_spec z 0); [contradiction|reflexivity|reflexivity].
  - destruct f as [sg|sg| |sg mant e]; cbn; try reflexivity.
    + destruct sg; reflexivity.
    + destruct (0 <=? e) eqn:He.
      * apply Z.leb_le in He.
        assert (Hp : 0 < 2 ^ e) by (apply Z.pow_pos_nonneg; lia).
        destruct sg;
          match goal with |- context [?a ?= 0] =>
            destruct (Z.compare_spec a 0) as [Hc|Hc|Hc]; try reflexivity
          end; exfalso; nia.
      * destruct sg; reflexivity.
Qed.

(** C10. [bool(q)] is [True] exactly when the magnitude of [q] differs
    from zero, and the exponents play no part: changing them leaves the
    truth value unchanged, so a zero magnitude is falsy whatever the
    dimension. *)
Theorem bool_iff_magnitude_nonzero (q : Quantity) :
  (__bool__ q = true <-> py_ne (value q) (PInt 0) = true) /\
  (forall u, __bool__ {| value := value q; unit := u |} = __bool__ q) /\
  (py_eq (value q) (PInt 0) = true -> __bool__ q = false).
Proof.
  unfold __bool__, __nonzero__. cbn [value]. rewrite py_bool_ne_zero.
  split; [|split].
  - destruct (py_ne (value q) (PInt 0)); split; congruence.
  - intros u. reflexivity.
  - unfold py_ne. intros ->. reflexivity.
Qed.

(** ** Compatibility *)

Lemma items_eq_numbers (u v : list number) :
  items_eq u (map ONum v) = Ok (unit_eqb u v).
Proof.
  revert v. induction u as [|x u IH]; intros [|y v]; cbn; try reflexivity.
  destruct (py_eq x y); cbn; [apply IH|reflexivity].
Qed.

Lemma compatible_quantities (a b : Quantity) :
  compatible a (OQuantity b) = Ok (unit_eqb (unit a) (unit b)).
Proof.
  unfold compatible, same_unit. cbn. unfold as_tuple.
  rewrite items_eq_numbers. reflexivity.
Qed.








(** ** Addition *)

Lemma well_formed_make (a : Quantity) (v : number) :
  well_formed a ->
  make v (unit a) = Ok (OQuantity {| value := v; unit := unit a |}).
Proof.
  intros [Hlen Hnz]. rewrite (make_spec v (unit a) Hlen), Hnz. reflexivity.
Qed.

(** C5 (as amended). For [a] and [b] with component-wise equal dimension
    vectors the compatibility assertion passes, and whenever the host's
    [+] on the two magnitudes returns, [a + b] is the instance whose
    dimension vector is that of [a] and whose magnitude is that sum; when
    the host's [+] raises (an int too large for a float added to a
    float), [a + b] raises the same error. *)
Theorem add_same_dimension (a b : Quantity) :
  well_formed a ->
  unit_eqb (unit a) (unit b) = true ->
  assert_compatible a (OQuantity b) = Ok tt /\
  (forall v, py_add (value a) (value b) = inr v ->
     __add__ a (OQuantity b) = Ok (OQuantity {| value := v; unit := unit a |})) /\
  (forall e, py_add (value a) (value b) = inl e ->
     __add__ a (OQuantity b) = lift (inl e)).
Proof.
  intros Hwf Heq.
  assert (Hc : assert_compatible a (OQuantity b) = Ok tt).
  { unfold assert_compatible. rewrite compatible_quantities, Heq. reflexivity. }
  split; [exact Hc|]. unfold __add__. rewrite Hc. cbn.
  split.
  - intros v ->. cbn. apply well_formed_make, Hwf.
  - intros e ->. destruct e; reflexivity.
Qed.

Lemma add_same_dimension_witness :
  (well_formed length_m /\ unit_eqb (unit length_m) (unit length_m) = true) /\
  __add__ length_m (OQuantity length_m)
  = Ok (OQuantity {| value := PInt 10; unit := unit length_m |}).
Proof.
  assert (Hwf : well_formed length_m) by (split; reflexivity).
  assert (Heq : unit_eqb (unit length_m) (unit length_m) = true) by reflexivity.
  split; [split; assumption|].
  exact (proj1 (proj2 (add_same_dimension length_m length_m Hwf Heq))
           (PInt 10) eq_refl).
Defined.

(** The original wording of C5 fails: the two lengths below have the
    same dimension vector, yet their sum raises [OverflowError], because
    [10 ** 400] has no float. *)
Lemma add_same_dimension_overflows :
  well_formed huge_length /\
  unit_eqb (unit huge_length) (unit unit_length) = true /\
  __add__ huge_length (OQuantity unit_length) = Raise OverflowError.
Proof. split; [split; reflexivity|]. split; vm_compute; reflexivity. Qed.

(** ** Multiplication and division *)

Lemma zip_result_length {A B C : Type} (f : A -> B -> result C)
    (u : list A) (v : list B) (w : list C) :
  zip_result f u v = Ok w ->
  List.length w = Nat.min (List.length u) (List.length v).
Proof.
  revert v w. induction u as [|a u IH]; intros [|b v] w; cbn;
    try (intros H; injection H as <-; reflexivity).
  destruct (f a b) as [c|e]; cbn; [|discriminate].
  destruct (zip_result f u v) as [cs|e] eqn:E; cbn; [|discriminate].
  intros H; injection H as <-. cbn. f_equal. apply IH, E.
Qed.

Lemma zip_result_nth {A B C : Type} (f : A -> B -> result C)
    (u : list A) (v : list B) (w : list C) (da : A) (db : B) (dc : C) (i : nat) :
  zip_result f u v = Ok w ->
  (i < List.length u)%nat -> (i < List.length v)%nat ->
  f (nth i u da) (nth i v db) = Ok (nth i w dc).
Proof.
  revert v w i. induction u as [|a u IH]; intros [|b v] w i; cbn;
    try (intros; lia).
  destruct (f a b) as [c|e] eqn:Ef; cbn; [|discriminate].
  destruct (zip_result f u v) as [cs|e] eqn:E; cbn; [|discriminate].
  intros H Hu Hv; injection H as <-.
  destruct i as [|i]; cbn; [exact Ef|].
  apply IH; [exact E|lia|lia].
Qed.

Lemma zip_result_defined {A B C : Type} (f : A -> B -> result C)
    (u : list A) (v : list B) (da : A) (db : B) :
  (forall i, (i < Nat.min (List.length u) (List.length v))%nat ->
     exists c, f (nth i u da) (nth i v db) = Ok c) ->
  exists w, zip_result f u v = Ok w.
Proof.
  revert v. induction u as [|a u IH]; intros [|b v] H; cbn;
    try (eexists; reflexivity).
  destruct (H 0%nat) as [c Hc]; [cbn; lia|]. cbn in Hc. rewrite Hc. cbn.
  destruct (IH v) as [w Hw].
  - intros i Hi. apply (H (S i)). cbn. lia.
  - rewrite Hw. cbn. eexists; reflexivity.
Qed.

Lemma lift_ok {A : Type} (r : arith_error + A) (a : A) :
  lift r = Ok a <-> r = inr a.
Proof.
  destruct r as [[]|x]; cbn; split; intros H; try discriminate H;
    injection H as ->; reflexivity.
Qed.

(** What a binary operator that combines the exponents with [op] and the
    magnitudes with [mag] returns, for well-formed operands. *)
Lemma combine_spec (op mag : number -> number -> arith_error + number)
    (a b : Quantity) (r : pyobj) :
  well_formed a -> well_formed b ->
  (u <- zip_result (fun x y => lift (op x y)) (unit a) (unit b) ;;
   v <- lift (mag (value a) (value b)) ;;
   make v u) = Ok r ->
  exists v u,
    mag (value a) (value b) = inr v /\
    magnitude r = Some v /\
    List.length u = 7%nat /\
    (forall i, (i < 7)%nat ->
       op (nth i (unit a) (PInt 0)) (nth i (unit b) (PInt 0))
       = inr (nth i u (PInt 0))) /\
    carries r u.
Proof.
  intros [Ha _] [Hb _].
  destruct (zip_result _ (unit a) (unit b)) as [u|e] eqn:Hu; cbn; [|discriminate].
  destruct (mag (value a) (value b)) as [e|v] eqn:Hv; cbn;
    [destruct e; discriminate|].
  assert (Hlen : List.length u = 7%nat).
  { rewrite (zip_result_length _ _ _ _ Hu), Ha, Hb. reflexivity. }
  rewrite (make_spec v u Hlen). intros H; injection H as <-.
  exists v, u. split; [reflexivity|].
  split; [destruct (all_zero u); reflexivity|].
  split; [exact Hlen|]. split.
  - intros i Hi. apply lift_ok.
    apply (zip_result_nth _ _ _ _ (PInt 0) (PInt 0) (PInt 0) i Hu); lia.
  - destruct (all_zero u) eqn:Hz; cbn; [exact Hz|reflexivity].
Qed.

Lemma combine_defined (op mag : number -> number -> arith_error + number)
    (a b : Quantity) (v : number) :
  well_formed a -> well_formed b ->
  mag (value a) (value b) = inr v ->
  (forall i, (i < 7)%nat ->
     exists e, op (nth i (unit a) (PInt 0)) (nth i (unit b) (PInt 0)) = inr e) ->
  exists r,
    (u <- zip_result (fun x y => lift (op x y)) (unit a) (unit b) ;;
     v <- lift (mag (value a) (value b)) ;;
     make v u) = Ok r.
Proof.
  intros [Ha _] [Hb _] Hv Hop.
  destruct (zip_result_defined (fun x y => lift (op x y)) (unit a) (unit b)
              (PInt 0) (PInt 0)) as [u Hu].
  - intros i Hi. rewrite Ha, Hb in Hi. destruct (Hop i Hi) as [e He].
    exists e. rewrite He. reflexivity.
  - rewrite Hu, Hv. cbn.
    assert (Hlen : List.length u = 7%nat).
    { rewrite (zip_result_length _ _ _ _ Hu), Ha, Hb. reflexivity. }
    rewrite (make_spec v u Hlen). eexists; reflexivity.
Qed.

(** C3. For instances [a] and [b]: whenever [a * b] returns, its
    magnitude is the product of the magnitudes and it stands for the vector
    whose exponent on each of the seven axes is the sum of the operands'
    exponents (an instance stores that vector; when all seven sums are
    zero the result is the bare product).  Likewise [a / b] has the
    quotient of the magnitudes and, on each axis, the exponent of [a]
    minus that of [b].  Both return as soon as the host arithmetic on the
    magnitudes and on each pair of exponents is defined. *)
Theorem mul_truediv_dimension (a b : Quantity) :
  well_formed a -> well_formed b ->
  (forall r, __mul__ a (Qty b) = Ok r ->
     exists v u,
       py_mul (value a) (value b) = inr v /\ magnitude r = Some v /\
       List.length u = 7%nat /\
       (forall i, (i < 7)%nat ->
          py_add (nth i (unit a) (PInt 0)) (nth i (unit b) (PInt 0))
          = inr (nth i u (PInt 0))) /\
       carries r u) /\
  (forall r, __truediv__ a (Qty b) = Ok r ->
     exists v u,
       py_truediv (value a) (value b) = inr v /\ magnitude r = Some v /\
       List.length u = 7%nat /\
       (forall i, (i < 7)%nat ->
          py_sub (nth i (unit a) (PInt 0)) (nth i (unit b) (PInt 0))
          = inr (nth i u (PInt 0))) /\
       carries r u) /\
  (forall v, py_mul (value a) (value b) = inr v ->
     (forall i, (i < 7)%nat -> exists e,
        py_add (nth i (unit a) (PInt 0)) (nth i (unit b) (PInt 0)) = inr e) ->
     exists r, __mul__ a (Qty b) = Ok r) /\
  (forall v, py_truediv (value a) (value b) = inr v ->
     (forall i, (i < 7)%nat -> exists e,
        py_sub (nth i (unit a) (PInt 0)) (nth i (unit b) (PInt 0)) = inr e) ->
     exists r, __truediv__ a (Qty b) = Ok r).
Proof.
  intros Ha Hb. repeat split.
  - intros r. apply (combine_spec py_add py_mul a b r Ha Hb).
  - intros r. apply (combine_spec py_sub py_truediv a b r Ha Hb).
  - intros v. apply (combine_defined py_add py_mul a b v Ha Hb).
  - intros v. apply (combine_defined py_sub py_truediv a b v Ha Hb).
Qed.

Lemma mul_truediv_dimension_witness :
  (well_formed length_m /\ well_formed mass_kg) /\
  exists r, __mul__ length_m (Qty mass_kg) = Ok r.
Proof.
  assert (Ha : well_formed length_m) by (split; reflexivity).
  assert (Hb : well_formed mass_kg) by (split; reflexivity).
  split; [split; assumption|].
  apply (proj1 (proj2 (proj2 (mul_truediv_dimension length_m mass_kg Ha Hb)))
           (PInt 15) eq_refl).
  intros i Hi.
  do 7 (destruct i as [|i]; [eexists; reflexivity|]). lia.
Defined.

(** ** Binary64 facts used below *)

Lemma new_location_zero (n : Z) : new_location n 0 = loc_Exact.
Proof. unfold new_location. destruct (Z.even n); reflexivity. Qed.

Lemma div_eucl_exact (q d : Z) : d <> 0 -> Z.div_eucl (q * d) d = (q, 0).
Proof.
  intros Hd.
  assert (H : Z.div_eucl (q * d) d = ((q * d) / d, (q * d) mod d)).
  { unfold Z.div, Z.modulo. destruct (Z.div_eucl (q * d) d). reflexivity. }
  rewrite H, Z.div_mul, Z.mod_mul by exact Hd. reflexivity.
Qed.

(** A finite nonzero float divided by itself is exactly [1.0]; so is an
    integer mantissa divided by itself. *)
Lemma SFdiv_self (sg : bool) (p : positive) (e : Z) :
  SFdiv prec emax (S754_finite sg p e) (S754_finite sg p e) = one.
Proof.
  unfold SFdiv, SFdiv_core_binary.
  rewrite !Z.sub_diag.
  change (Z.min (fexp prec emax 0) 0) with (-53).
  change (0 - -53) with 53.
  cbv match.
  rewrite Z.shiftl_mul_pow2 by lia.
  rewrite (Z.mul_comm (Z.pos p)), div_eucl_exact by discriminate.
  rewrite new_location_zero, xorb_nilpotent.
  reflexivity.
Qed.

Lemma SFsub_self (f : spec_float) :
  is_nan f = false -> is_inf f = false ->
  SFsub prec emax f f = S754_zero false.
Proof.
  destruct f as [sg|sg| |sg p e]; intros Hn Hi; try discriminate.
  - destruct sg; reflexivity.
  - unfold SFsub. rewrite Z.min_id, Z.sub_diag. reflexivity.
Qed.

Lemma py_truediv_self (x : number) :
  finite x = true -> py_ne x (PInt 0) = true ->
  py_truediv x x = inr (PFloat one).
Proof.
  intros Hf Hnz. rewrite <- py_bool_ne_zero in Hnz.
  destruct x as [z|f]; cbn in Hnz.
  - unfold py_truediv, int_true_divide.
    destruct (z =? 0); [discriminate Hnz|].
    rewrite SFdiv_self. reflexivity.
  - destruct f as [sg|sg| |sg p e]; try discriminate.
    unfold py_truediv. cbv [as_float float_is_zero]. cbv iota beta.
    rewrite SFdiv_self. reflexivity.
Qed.

Lemma py_sub_self (t : number) :
  finite t = true ->
  exists d, py_sub t t = inr d /\ py_eq d (PInt 0) = true.
Proof.
  intros Hf. destruct t as [z|f].
  - exists (PInt 0). cbn. rewrite Z.sub_diag. split; reflexivity.
  - exists (PFloat (S754_zero false)). split; [|reflexivity].
    unfold py_sub, float_binop. cbn.
    rewrite SFsub_self; [reflexivity| |]; destruct f; try reflexivity;
      discriminate Hf.
Qed.

(** ** Division of a quantity by itself *)

Lemma zip_sub_self (u : list number) :
  forallb finite u = true ->
  exists d, zip_result (fun x y => lift (py_sub x y)) u u = Ok d /\
            all_zero d = true /\ List.length d = List.length u.
Proof.
  induction u as [|t u IH]; cbn; intros H.
  - exists []. repeat split.
  - apply andb_prop in H as [Ht Hu].
    destruct (py_sub_self t Ht) as (d0 & Hd0 & Hz0).
    destruct (IH Hu) as (d & Hd & Hz & Hl).
    exists (d0 :: d). split; [|split].
    + rewrite Hd0. cbn. rewrite Hd. reflexivity.
    + unfold all_zero in *. cbn. rewrite Hz0, Hz. reflexivity.
    + cbn. rewrite Hl. reflexivity.
Qed.

(** C6 fails as stated: an instance with magnitude [inf] (which is not
    zero) divided by itself gives NaN, which is not equal to 1. *)
Lemma truediv_self_infinite_is_nan :
  well_formed infinite_length /\
  py_ne (value infinite_length) (PInt 0) = true /\
  __truediv__ infinite_length (Qty infinite_length) = Ok (ONum (PFloat S754_nan)) /\
  py_eq (PFloat S754_nan) (PInt 1) = false.
Proof. repeat split. Qed.

(** ** Powers and roots *)

Lemma digits2_pos_size (p : positive) : digits2_pos p = Pos.size p.
Proof. induction p; cbn; congruence. Qed.

Lemma Zdigits2_log2 (p : positive) : Zdigits2 (Z.pos p) = Z.log2 (Z.pos p) + 1.
Proof.
  cbn [Zdigits2]. rewrite digits2_pos_size.
  destruct p; cbn [Z.log2 Pos.size]; rewrite ?Pos2Z.inj_succ; lia.
Qed.

Lemma fexp_small (x : Z) : -1021 <= x -> fexp prec emax x = x - 53.
Proof. intros H. unfold fexp, emin, prec, emax. lia. Qed.

(** A mantissa that already has the right number of bits is kept as it
    is by the rounding step. *)
Lemma binary_round_aux_fits (sg : bool) (p : positive) (e : Z) :
  fexp prec emax (Zdigits2 (Z.pos p) + e) - e <= 0 ->
  e <= 971 ->
  binary_round_aux prec emax sg (Z.pos p) e loc_Exact = S754_finite sg p e.
Proof.
  intros Hk He. unfold binary_round_aux, shr_fexp.
  cbn [shr_record_of_loc].
  destruct (fexp prec emax (Zdigits2 (Z.pos p) + e) - e) as [|k|k] eqn:Ek;
    try lia; cbn [shr shr_m loc_of_shr_record round_nearest_even];
    rewrite Ek; cbn [shr shr_m];
    (destruct (Z.leb_spec e (emax - prec)) as [_|Hc];
     [reflexivity|unfold emax, prec in Hc; lia]).
Qed.

(** A mantissa with one bit too many, the last one zero, loses that bit
    and nothing else. *)
Lemma binary_round_aux_drop_bit (sg : bool) (p : positive) (e : Z) :
  fexp prec emax (Zdigits2 (Z.pos p~0) + e) - e = 1 ->
  e + 1 <= 971 ->
  binary_round_aux prec emax sg (Z.pos p~0) e loc_Exact = S754_finite sg p (e + 1).
Proof.
  intros Hk He. unfold binary_round_aux, shr_fexp.
  cbn [shr_record_of_loc]. rewrite Hk.
  cbn [shr iter_pos shr_1 orb shr_m loc_of_shr_record round_nearest_even].
  assert (H0 : fexp prec emax (Zdigits2 (Z.pos p) + (e + 1)) - (e + 1) = 0).
  { cbn [Zdigits2 digits2_pos] in Hk. rewrite Pos2Z.inj_succ in Hk.
    cbn [Zdigits2].
    replace (Z.pos (digits2_pos p) + (e + 1))
      with (Z.succ (Z.pos (digits2_pos p)) + e) by lia.
    lia. }
  rewrite H0. cbn [shr shr_m].
  destruct (Z.leb_spec (e + 1) (emax - prec)) as [_|Hc];
    [reflexivity|unfold emax, prec in Hc; lia].
Qed.

Lemma positive_value (x : Z) : 0 < x -> exists p, x = Z.pos p.
Proof. intros H. exists (Z.to_pos x). rewrite Z2Pos.id; [reflexivity|exact H]. Qed.

(** The quotient of the mantissas [pn * pt] and [pn] is the float that
    holds [pt] exactly, as long as [pt] has at most 53 bits. *)
Lemma SFdiv_exact_quotient (sa sn : bool) (pn pt : positive) :
  Z.pos pt < 2 ^ 53 ->
  exists m e,
    SFdiv prec emax (S754_finite sa (pn * pt) 0) (S754_finite sn pn 0)
    = S754_finite (xorb sa sn) m e /\
    e <= 0 /\ Z.pos m = Z.pos pt * 2 ^ (- e).
Proof.
  intros Ht.
  pose proof (Z.log2_nonneg (Z.pos pt)) as HlT0.
  assert (HlT : Z.log2 (Z.pos pt) < 53) by (apply Z.log2_lt_pow2; lia).
  pose proof (Z.log2_mul_below (Z.pos pn) (Z.pos pt) ltac:(lia) ltac:(lia)) as Hlo.
  pose proof (Z.log2_mul_above (Z.pos pn) (Z.pos pt) ltac:(lia) ltac:(lia)) as Hhi.
  unfold SFdiv, SFdiv_core_binary. rewrite !Zdigits2_log2, Pos2Z.inj_mul.
  set (lN := Z.log2 (Z.pos pn)) in *.
  set (lT := Z.log2 (Z.pos pt)) in *.
  set (lP := Z.log2 (Z.pos pn * Z.pos pt)) in *.
  set (D := lP - lN).
  assert (He : Z.min (fexp prec emax (lP + 1 + 0 - (lN + 1 + 0))) (0 - 0) = D - 53).
  { rewrite fexp_small by lia. subst D. lia. }
  rewrite He.
  assert (Hm : match 0 - 0 - (D - 53) with
               | Z.pos _ => Z.shiftl (Z.pos pn * Z.pos pt) (0 - 0 - (D - 53))
               | 0 => Z.pos pn * Z.pos pt
               | Z.neg _ => 0
               end = (Z.pos pt * 2 ^ (53 - D)) * Z.pos pn).
  { replace (0 - 0 - (D - 53)) with (53 - D) by lia.
    destruct (53 - D) as [|k|k] eqn:Ek.
    - rewrite Z.pow_0_r. lia.
    - rewrite Z.shiftl_mul_pow2 by lia. lia.
    - subst D. lia. }
  rewrite Hm, div_eucl_exact by discriminate. rewrite new_location_zero.
  assert (HD : D = lT + 1 \/ D = lT) by (subst D; lia).
  destruct HD as [HD|HD].
  - destruct (positive_value (Z.pos pt * 2 ^ (53 - D))) as [m0 Hm0].
    { apply Z.mul_pos_pos; [lia|]. apply Z.pow_pos_nonneg; lia. }
    rewrite Hm0. exists m0, (D - 53).
    split; [|split; [lia|]].
    + apply binary_round_aux_fits; [|lia].
      rewrite Zdigits2_log2, <- Hm0, Z.log2_mul_pow2 by lia.
      fold lT. rewrite fexp_small by lia. lia.
    + rewrite <- Hm0. f_equal. f_equal. lia.
  - destruct (positive_value (Z.pos pt * 2 ^ (52 - D))) as [m0 Hm0].
    { apply Z.mul_pos_pos; [lia|]. apply Z.pow_pos_nonneg; lia. }
    assert (H2 : Z.pos pt * 2 ^ (53 - D) = Z.pos m0~0).
    { rewrite (Pos2Z.inj_xO m0), <- Hm0.
      replace (53 - D) with (Z.succ (52 - D)) by lia.
      rewrite Z.pow_succ_r by lia. lia. }
    rewrite H2. exists m0, (D - 53 + 1).
    split; [|split; [lia|]].
    + apply binary_round_aux_drop_bit; [|lia].
      rewrite Zdigits2_log2, <- H2, Z.log2_mul_pow2 by lia.
      fold lT. rewrite fexp_small by lia. lia.
    + rewrite <- Hm0. f_equal. f_equal. lia.
Qed.

(** [(n * t) / n == t] for integers, [t] below [2 ** 53] in absolute
    value: the float quotient holds [t] exactly. *)
Lemma int_true_divide_exact (n t : Z) :
  n <> 0 -> Z.abs t < 2 ^ 53 ->
  exists f, int_true_divide (n * t) n = inr f /\
            float_int_compare f t = Some Eq.
Proof.
  intros Hn Ht. unfold int_true_divide.
  destruct (Z.eqb_spec n 0) as [|_]; [contradiction|].
  destruct (Z.eqb_spec (n * t) 0) as [H0|H0].
  - assert (t = 0) by nia. subst t.
    eexists. split; [reflexivity|]. reflexivity.
  - assert (Ht0 : t <> 0) by nia.
    assert (Hp : Z.to_pos (Z.abs (n * t)) = (Z.to_pos (Z.abs n) * Z.to_pos (Z.abs t))%positive).
    { rewrite Z.abs_mul, Z2Pos.inj_mul by lia. reflexivity. }
    rewrite Hp.
    destruct (SFdiv_exact_quotient (n * t <? 0) (n <? 0)
                (Z.to_pos (Z.abs n)) (Z.to_pos (Z.abs t))) as (m & e & Hq & He & Hm).
    { rewrite Z2Pos.id by lia. exact Ht. }
    rewrite Hq. cbn [is_inf]. eexists. split; [reflexivity|].
    rewrite Z2Pos.id in Hm by lia.
    assert (Hs : xorb (n * t <? 0) (n <? 0) = (t <? 0)).
    { destruct (Z.ltb_spec (n * t) 0), (Z.ltb_spec n 0), (Z.ltb_spec t 0);
        cbn; try reflexivity; nia. }
    rewrite Hs. cbn [float_int_compare]. f_equal.
    assert (H2 : 0 < 2 ^ (- e)) by (apply Z.pow_pos_nonneg; lia).
    destruct (Z.leb_spec 0 e) as [He0|He0].
    + assert (e = 0) by lia. subst e. cbn in Hm. rewrite Z.pow_0_r.
      apply Z.compare_eq_iff.
      destruct (Z.ltb_spec t 0); rewrite ?Pos2Z.opp_pos; lia.
    + apply Z.compare_eq_iff.
      destruct (Z.ltb_spec t 0).
      * rewrite <- Pos2Z.opp_pos, Hm. rewrite (Z.abs_neq t) by lia. lia.
      * rewrite Hm. rewrite (Z.abs_eq t) by lia. reflexivity.
Qed.

Lemma float_eq_int_nonzero (f : spec_float) (z : Z) :
  float_int_compare f z = Some Eq -> z <> 0 ->
  py_eq (PFloat f) (PInt 0) = false.
Proof.
  intros Hc Hz.
  destruct f as [sg|sg| |sg p e].
  - cbn in Hc. destruct z; [congruence|discriminate Hc|discriminate Hc].
  - destruct sg; reflexivity.
  - reflexivity.
  - pose proof (py_bool_ne_zero (PFloat (S754_finite sg p e))) as Hb.
    unfold py_ne in Hb.
    change (py_bool (PFloat (S754_finite sg p e))) with true in Hb.
    destruct (py_eq (PFloat (S754_finite sg p e)) (PInt 0));
      [discriminate Hb|reflexivity].
Qed.

Lemma small_ints (u : list number) :
  forallb small_int u = true ->
  exists zs, u = map PInt zs /\ Forall (fun z => Z.abs z < 2 ^ 53) zs.
Proof.
  induction u as [|t u IH]; cbn; intros H.
  - exists []. split; constructor.
  - apply andb_prop in H as [Ht Hu]. destruct (IH Hu) as (zs & -> & Hzs).
    destruct t as [z|f]; [|discriminate Ht].
    exists (z :: zs). split; [reflexivity|].
    constructor; [|exact Hzs]. apply Z.ltb_lt, Ht.
Qed.

Lemma power_units (n : Z) (zs : list Z) :
  map_result (fun t => lift (py_mul (PInt n) t)) (map PInt zs)
  = Ok (map (fun z => PInt (n * z)) zs).
Proof.
  induction zs as [|z zs IH]; [reflexivity|].
  cbn [map map_result]. rewrite IH. reflexivity.
Qed.

Lemma power_units_zero (n : Z) (zs : list Z) :
  n <> 0 ->
  all_zero (map (fun z => PInt (n * z)) zs) = all_zero (map PInt zs).
Proof.
  intros Hn. unfold all_zero. induction zs as [|z zs IH]; cbn; [reflexivity|].
  rewrite IH. f_equal. unfold py_eq. cbn.
  destruct (Z.compare_spec (n * z) 0), (Z.compare_spec z 0);
    try reflexivity; nia.
Qed.

Lemma root_units (n : Z) (zs : list Z) :
  n <> 0 -> Forall (fun z => Z.abs z < 2 ^ 53) zs ->
  exists u,
    map_result (fun t => lift (py_truediv t (PInt n)))
               (map (fun z => PInt (n * z)) zs) = Ok u /\
    unit_eqb u (map PInt zs) = true /\
    all_zero u = all_zero (map PInt zs) /\
    List.length u = List.length zs.
Proof.
  intros Hn Hzs. induction Hzs as [|z zs Hz _ IH].
  - exists []. repeat split.
  - destruct IH as (u & Hu & Heq & Hzero & Hlen).
    destruct (int_true_divide_exact n z Hn Hz) as (f & Hf & Hc).
    exists (PFloat f :: u). split; [|split; [|split]].
    + cbn. rewrite Hf. cbn. rewrite Hu. reflexivity.
    + cbn. rewrite Heq. unfold py_eq. cbn. rewrite Hc. reflexivity.
    + unfold all_zero in *. cbn. rewrite Hzero. f_equal.
      destruct (Z.eq_dec z 0) as [->|Hz0].
      * unfold py_eq at 1. cbn. rewrite Hc. reflexivity.
      * rewrite (float_eq_int_nonzero f z Hc Hz0). unfold py_eq. cbn.
        destruct (Z.compare_spec z 0); [contradiction|reflexivity|reflexivity].
    + cbn. rewrite Hlen. reflexivity.
Qed.

(** The shifts of the rounding step never increase the mantissa, and
    leave the exponent either unchanged or canonical. *)
Lemma shr_1_bound (mrs : shr_record) :
  0 <= shr_m mrs -> 0 <= shr_m (shr_1 mrs) <= shr_m mrs.
Proof.
  destruct mrs as [m r s]. cbn [shr_m]. intros Hm.
  destruct m as [|p|p]; [cbn; lia| |lia].
  destruct p as [p|p|]; cbn [shr_1 shr_m]; lia.
Qed.

Lemma iter_shr_1_bound (p : positive) (mrs : shr_record) :
  0 <= shr_m mrs -> 0 <= shr_m (iter_pos shr_1 p mrs) <= shr_m mrs.
Proof.
  revert mrs. induction p as [p IH|p IH|]; intros mrs Hm; cbn [iter_pos].
  - pose proof (shr_1_bound mrs Hm) as H1.
    pose proof (IH (shr_1 mrs) (proj1 H1)) as H2.
    pose proof (IH _ (proj1 H2)) as H3. lia.
  - pose proof (IH mrs Hm) as H2.
    pose proof (IH _ (proj1 H2)) as H3. lia.
  - apply shr_1_bound, Hm.
Qed.

Lemma shr_fexp_bound (m e : Z) (l : location) (mrs : shr_record) (e1 : Z) :
  0 <= m -> shr_fexp prec emax m e l = (mrs, e1) ->
  0 <= shr_m mrs <= m /\
  (e1 = e \/ e1 = fexp prec emax (Zdigits2 m + e)).
Proof.
  intros Hm. unfold shr_fexp, shr.
  assert (H0 : shr_m (shr_record_of_loc m l) = m).
  { destruct l as [|[]]; reflexivity. }
  destruct (fexp prec emax (Zdigits2 m + e) - e) as [|k|k] eqn:Ek;
    intros H; injection H as <- <-.
  - rewrite H0. split; [lia|left; reflexivity].
  - pose proof (iter_shr_1_bound k (shr_record_of_loc m l)) as Hb.
    rewrite H0 in Hb. split; [apply Hb, Hm|right; lia].
  - rewrite H0. split; [lia|left; reflexivity].
Qed.

Lemma Zdigits2_bound (m b : Z) : 0 <= m < 2 ^ b -> 0 <= b -> Zdigits2 m <= b.
Proof.
  intros Hm Hb. destruct m as [|p|p]; [cbn; lia| |lia].
  rewrite Zdigits2_log2.
  assert (Z.log2 (Z.pos p) < b) by (apply Z.log2_lt_pow2; lia). lia.
Qed.

Lemma round_nearest_even_bound (m : Z) (l : location) :
  0 <= m -> 0 <= round_nearest_even m l <= m + 1.
Proof.
  intros Hm. destruct l as [|[]]; cbn [round_nearest_even];
    try destruct (Z.even m); lia.
Qed.

(** Rounding a small value cannot overflow. *)
Lemma binary_round_aux_small (sg : bool) (m e : Z) (l : location) :
  0 <= m <= 2 ^ 1074 -> -1074 <= e <= -53 -> Zdigits2 m + e <= 1 ->
  is_inf (binary_round_aux prec emax sg m e l) = false.
Proof.
  intros Hm He Hd. unfold binary_round_aux.
  destruct (shr_fexp prec emax m e l) as [mrs1 e1] eqn:E1.
  destruct (shr_fexp_bound m e l mrs1 e1 (proj1 Hm) E1) as [Hm1 He1].
  assert (He1' : e1 <= -52).
  { destruct He1 as [->| ->]; [lia|]. unfold fexp, emin, prec, emax. lia. }
  pose proof (round_nearest_even_bound (shr_m mrs1) (loc_of_shr_record mrs1)
                (proj1 Hm1)) as Hr.
  set (m2 := round_nearest_even (shr_m mrs1) (loc_of_shr_record mrs1)) in *.
  destruct (shr_fexp prec emax m2 e1 loc_Exact) as [mrs2 e2] eqn:E2.
  destruct (shr_fexp_bound m2 e1 loc_Exact mrs2 e2 (proj1 Hr) E2) as [Hm2 He2].
  assert (Hd2 : Zdigits2 m2 <= 1075).
  { apply Zdigits2_bound; [|lia].
    assert (2 ^ 1074 + 1 < 2 ^ 1075) by (vm_compute; reflexivity). lia. }
  assert (He2' : e2 <= 971).
  { destruct He2 as [->| ->]; [lia|]. unfold fexp, emin, prec, emax. lia. }
  destruct (shr_m mrs2); [reflexivity| |reflexivity].
  destruct (Z.leb_spec e2 (emax - prec)) as [_|Hc];
    [reflexivity|unfold emax, prec in Hc; lia].
Qed.

(** [1 / n] is defined for every nonzero integer [n]. *)
Lemma reciprocal_defined (n : Z) :
  n <> 0 -> exists r, py_truediv (PInt 1) (PInt n) = inr (PFloat r).
Proof.
  intros Hn. unfold py_truediv, int_true_divide.
  destruct (Z.eqb_spec n 0) as [|_]; [contradiction|].
  change (1 =? 0) with false. cbv iota.
  match goal with |- context [is_inf ?f] =>
    assert (Hf : is_inf f = false); [|rewrite Hf; eexists; reflexivity]
  end.
  unfold SFdiv, SFdiv_core_binary.
  rewrite (Zdigits2_log2 (Z.to_pos (Z.abs n))).
  pose proof (Z.log2_nonneg (Z.pos (Z.to_pos (Z.abs n)))) as Hl.
  set (lN := Z.log2 (Z.pos (Z.to_pos (Z.abs n)))) in *.
  change (Zdigits2 (Z.pos (Z.to_pos (Z.abs 1)))) with 1.
  set (e' := Z.min (fexp prec emax (1 + 0 - (lN + 1 + 0))) (0 - 0)).
  assert (He : -1074 <= e' <= -53).
  { subst e'. unfold fexp, emin, prec, emax. lia. }
  assert (Hs : 0 - 0 - e' = - e') by lia. rewrite Hs.
  destruct (- e') as [|s|s] eqn:Es; try lia.
  rewrite <- Es. change (Z.pos (Z.to_pos (Z.abs 1))) with 1.
  rewrite Z.shiftl_mul_pow2, Z.mul_1_l by lia.
  pose proof (Z.div_eucl_eq (2 ^ (- e')) (Z.pos (Z.to_pos (Z.abs n))) ltac:(lia)) as Hq.
  pose proof (Z.mod_pos_bound (2 ^ (- e')) (Z.pos (Z.to_pos (Z.abs n))) ltac:(lia)) as Hr.
  unfold Z.modulo in Hr.
  destruct (Z.div_eucl (2 ^ (- e')) (Z.pos (Z.to_pos (Z.abs n)))) as [q r].
  assert (Hp : 0 < 2 ^ (- e')) by (apply Z.pow_pos_nonneg; lia).
  assert (Hq0 : 0 <= q) by nia.
  assert (Hq1 : q <= 2 ^ (- e')) by nia.
  assert (Hmono : 2 ^ (- e') <= 2 ^ 1074) by (apply Z.pow_le_mono_r; lia).
  apply binary_round_aux_small; [lia|lia|].
  destruct (Z.eq_dec q 0) as [->|Hq2]; [cbn; lia|].
  destruct q as [|pq|pq]; try lia.
  rewrite Zdigits2_log2.
  assert (Z.log2 (Z.pos pq) <= - e').
  { rewrite <- (Z.log2_pow2 (- e')) by lia. apply Z.log2_le_mono. lia. }
  lia.
Qed.

(** C7 (as amended). Let the exponents of [a] be Python ints below
    [2 ** 53] in absolute value and [n] a nonzero int.  Then
    [root(power(a, n), n)] is determined by the two [**] on the magnitude
    alone: if either raises, so does the whole; otherwise the result is an
    instance whose dimension vector [u] is component-wise [==] to that of
    [a] (each exponent is [n * t] after [power] and the float [(n * t) / n]
    after [root], which holds [t] exactly). *)
Theorem root_of_power_dimension (a : Quantity) (n : Z) :
  well_formed a -> forallb small_int (unit a) = true -> n <> 0 ->
  exists u r,
    unit_eqb u (unit a) = true /\
    py_truediv (PInt 1) (PInt n) = inr (PFloat r) /\
    forall power,
      root_of_power power a (PInt n) =
      (v1 <- power (value a) (PInt n) ;;
       v2 <- power v1 (PFloat r) ;;
       Ok (OQuantity {| value := v2; unit := u |})).
Proof.
  intros [Hlen Hnz] Hsmall Hn.
  destruct (small_ints (unit a) Hsmall) as (zs & Hzs & Hbound).
  rewrite Hzs in Hlen, Hnz. rewrite length_map in Hlen.
  destruct (root_units n zs Hn Hbound) as (u & Hu & Heq & Hzero & Hl).
  destruct (reciprocal_defined n Hn) as [r Hr].
  exists u, r. rewrite Hzs. split; [exact Heq|]. split; [exact Hr|].
  intros power. unfold root_of_power, __pow__.
  rewrite Hzs, power_units. cbn [bind].
  destruct (power (value a) (PInt n)) as [v1|e]; cbn [bind]; [|reflexivity].
  rewrite make_spec by (rewrite length_map; exact Hlen).
  rewrite (power_units_zero n zs Hn), Hnz. cbn [bind call_root].
  unfold root. cbn [unit value]. rewrite Hu, Hr. cbn [bind lift].
  destruct (power v1 (PFloat r)) as [v2|e]; cbn [bind]; [|reflexivity].
  rewrite make_spec by congruence.
  rewrite Hzero, Hnz. reflexivity.
Qed.

Lemma root_of_power_dimension_witness :
  (well_formed length_m /\ forallb small_int (unit length_m) = true /\ 2 <> 0) /\
  exists u r, unit_eqb u (unit length_m) = true /\
    py_truediv (PInt 1) (PInt 2) = inr (PFloat r) /\
    forall power,
      root_of_power power length_m (PInt 2) =
      (v1 <- power (value length_m) (PInt 2) ;;
       v2 <- power v1 (PFloat r) ;;
       Ok (OQuantity {| value := v2; unit := u |})).
Proof.
  assert (Hwf : well_formed length_m) by (split; reflexivity).
  assert (Hn : 2 <> 0) by discriminate.
  split; [repeat split; assumption|].
  exact (root_of_power_dimension length_m 2 Hwf eq_refl Hn).
Defined.

(** C7 fails as stated: with the exponent [0.1] on the length axis and
    [n = 3], [power] stores [3 * 0.1 = 0.30000000000000004] and [root]
    stores [0.30000000000000004 / 3 = 0.10000000000000002], which is not
    [0.1]; whatever [**] does on the magnitude, the result is not an
    instance with the dimension vector of [a]. *)
Lemma root_of_power_fractional_exponent :
  well_formed fractional_length /\
  ~ (exists power q,
       root_of_power power fractional_length (PInt 3) = Ok (OQuantity q) /\
       unit_eqb (unit q) (unit fractional_length) = true).
Proof.
  split; [split; reflexivity|].
  intros (power & q & H & Heq).
  unfold root_of_power, __pow__ in H. cbn in H.
  destruct (power (PInt 1) (PInt 3)) as [v1|e]; cbn in H; [|discriminate H].
  destruct (power v1 _) as [v2|e]; cbn in H; [|discriminate H].
  injection H as <-. vm_compute in Heq. discriminate Heq.
Qed.

(** ** The length-over-time scenario *)

(** C8 (as amended). [Quantity(10, m=1) / Quantity(2, s=1)] is an
    instance with dimension vector [(1,0,-1,0,0,0,0)] whose magnitude is
    the float [5.0] (true division of two ints yields a float), equal to
    [5]; its human-readable rendering is ["5.0[m/s]"]. *)
Theorem length_over_time :
  construct (PInt 10) UnitNone m_1 = Ok (OQuantity L) /\
  construct (PInt 2) UnitNone s_1 = Ok (OQuantity T) /\
  __truediv__ L (Qty T) = Ok (OQuantity speed) /\
  py_eq (value speed) (PInt 5) = true /\
  __str__ speed = "5.0[m/s]"%string.
Proof. repeat split; vm_compute; reflexivity. Qed.

(** C8 fails as stated: the rendering of the quotient is not ["5[m/s]"]. *)
Lemma length_over_time_not_integer_text :
  exists q, __truediv__ L (Qty T) = Ok (OQuantity q) /\
            __str__ q <> "5[m/s]"%string.
Proof.
  exists speed. split; [reflexivity|].
  vm_compute. discriminate.
Qed.

(** ** Division by an equal quantity *)

Lemma shr_1_exact (y : Z) : shr_1 (exact_shr (2 * y)) = exact_shr y.
Proof. destruct y as [|p|p]; reflexivity. Qed.

Lemma iter_shr_1_exact (k : positive) (y : Z) :
  iter_pos shr_1 k (exact_shr (y * 2 ^ Z.pos k)) = exact_shr y.
Proof.
  revert y. induction k as [k IH|k IH|]; intros y; cbn [iter_pos].
  - replace (y * 2 ^ Z.pos k~1) with (2 * (y * 2 ^ Z.pos k * 2 ^ Z.pos k)).
    + now rewrite shr_1_exact, !IH.
    + replace (Z.pos k~1) with (Z.pos k + Z.pos k + 1) by lia.
      rewrite !Z.pow_add_r by lia. change (2 ^ 1) with 2. ring.
  - replace (y * 2 ^ Z.pos k~0) with (y * 2 ^ Z.pos k * 2 ^ Z.pos k).
    + now rewrite !IH.
    + replace (Z.pos k~0) with (Z.pos k + Z.pos k) by lia.
      rewrite Z.pow_add_r by lia. ring.
  - replace (y * 2 ^ 1) with (2 * y) by lia. apply shr_1_exact.
Qed.

Lemma Zdigits2_shift (m : positive) (k : Z) :
  0 <= k -> Zdigits2 (Z.pos m * 2 ^ k) = Zdigits2 (Z.pos m) + k.
Proof.
  intros Hk.
  assert (P : 0 < Z.pos m * 2 ^ k)
    by (apply Z.mul_pos_pos; [lia|apply Z.pow_pos_nonneg; lia]).
  destruct (positive_value _ P) as [p Hp]. rewrite Hp, !Zdigits2_log2, <- Hp.
  rewrite Z.log2_mul_pow2 by lia. lia.
Qed.

(** An integer that is a 53-bit mantissa times a power of two is
    converted without rounding. *)
Lemma binary_round_aux_shift (sg : bool) (m : positive) (k : Z) :
  Zdigits2 (Z.pos m) = 53 -> 0 <= k <= 971 ->
  binary_round_aux prec emax sg (Z.pos m * 2 ^ k) 0 loc_Exact
  = S754_finite sg m k.
Proof.
  intros D Hk.
  destruct (Z.eq_dec k 0) as [->|K0].
  - rewrite Z.mul_1_r. apply binary_round_aux_fits; [|lia].
    rewrite D. unfold fexp, emin, prec, emax. lia.
  - unfold binary_round_aux, shr_fexp.
    rewrite Zdigits2_shift, D by lia.
    replace (fexp prec emax (53 + k + 0) - 0) with k
      by (unfold fexp, emin, prec, emax; lia).
    destruct k as [|kp|kp]; try lia.
    cbn [shr shr_record_of_loc]. fold (exact_shr (Z.pos m * 2 ^ Z.pos kp)).
    rewrite iter_shr_1_exact.
    cbn [exact_shr shr_m loc_of_shr_record round_nearest_even].
    rewrite D.
    replace (fexp prec emax (53 + (0 + Z.pos kp)) - (0 + Z.pos kp)) with 0
      by (unfold fexp, emin, prec, emax; lia).
    cbn [shr shr_record_of_loc shr_m].
    destruct (Z.leb_spec (0 + Z.pos kp) (emax - prec)) as [_|Hc];
      [reflexivity|unfold emax, prec in Hc; lia].
Qed.

Lemma binary_round_exact_up (sg : bool) (m p : positive) (e : Z) :
  Zdigits2 (Z.pos m) = 53 -> 0 <= e <= 971 ->
  Z.pos p = Z.pos m * 2 ^ e ->
  binary_round prec emax sg p 0 = S754_finite sg m e.
Proof.
  intros D He Hp. unfold binary_round.
  change (Z.pos (digits2_pos p)) with (Zdigits2 (Z.pos p)).
  rewrite Hp, Zdigits2_shift, D by lia.
  replace (fexp prec emax (53 + e + 0)) with e
    by (unfold fexp, emin, prec, emax; lia).
  unfold shl_align. rewrite Z.sub_0_r.
  assert (A : match e with
              | Z.neg d => (Pos.iter xO p d, e)
              | _ => (p, 0)
              end = (p, 0)) by (destruct e; [reflexivity|reflexivity|lia]).
  rewrite A. cbv beta iota. rewrite Hp.
  apply binary_round_aux_shift; [exact D|lia].
Qed.

Lemma binary_round_exact_down (sg : bool) (m p : positive) (e : Z) :
  fexp prec emax (Zdigits2 (Z.pos m) + e) = e -> e < 0 ->
  Z.pos m = Z.pos p * 2 ^ (- e) ->
  binary_round prec emax sg p 0 = S754_finite sg m e.
Proof.
  intros C He Hm. unfold binary_round.
  change (Z.pos (digits2_pos p)) with (Zdigits2 (Z.pos p)).
  assert (Dm : Zdigits2 (Z.pos m) = Zdigits2 (Z.pos p) + - e)
    by (rewrite Hm; apply Zdigits2_shift; lia).
  assert (Dp : 1 <= Zdigits2 (Z.pos p)).
  { rewrite Zdigits2_log2. pose proof (Z.log2_nonneg (Z.pos p)). lia. }
  assert (Fe : fexp prec emax (Zdigits2 (Z.pos p) + 0) = e).
  { rewrite Dm in C. revert C. unfold fexp, emin, prec, emax. lia. }
  rewrite Fe. unfold shl_align. rewrite Z.sub_0_r.
  destruct e as [|ep|ep]; try lia.
  fold (shift_pos ep p).
  assert (S : shift_pos ep p = m).
  { apply Pos2Z.inj. rewrite shift_pos_correct, Hm.
    rewrite Z.pow_pos_fold. cbn [Z.opp]. ring. }
  rewrite S. apply binary_round_aux_fits; [lia|lia].
Qed.

(** An int that equals a float of the host is converted to that very
    float. *)
Lemma int_to_float_exact (s : bool) (m : positive) (e z : Z) :
  valid_binary prec emax (S754_finite s m e) = true ->
  float_int_compare (S754_finite s m e) z = Some Eq ->
  int_to_float z = inr (S754_finite s m e).
Proof.
  cbn [valid_binary]. unfold bounded, canonical_mantissa.
  intros V C. apply andb_prop in V as [V1 V2].
  apply Z.eqb_eq in V1. apply Z.leb_le in V2. unfold emax, prec in V2.
  change (Z.pos (digits2_pos m)) with (Zdigits2 (Z.pos m)) in V1.
  cbn [float_int_compare] in C. injection C as C.
  assert (R : binary_normalize prec emax z 0 false = S754_finite s m e).
  { destruct (Z.leb_spec 0 e) as [He|He]; apply Z.compare_eq in C.
    - assert (D : Zdigits2 (Z.pos m) = 53)
        by (revert V1; unfold fexp, emin, prec, emax; lia).
      pose proof (Z.pow_pos_nonneg 2 e ltac:(lia) He) as P.
      destruct s, z as [|p|p]; try nia; cbn [binary_normalize];
        apply binary_round_exact_up; try exact D; try lia.
    - pose proof (Z.pow_pos_nonneg 2 (- e) ltac:(lia) ltac:(lia)) as P.
      destruct s, z as [|p|p]; try nia; cbn [binary_normalize];
        apply binary_round_exact_down; try exact V1; try lia. }
  unfold int_to_float. rewrite R. reflexivity.
Qed.

Lemma SFcompare_eq_finite (s s' : bool) (m m' : positive) (e e' : Z) :
  SFcompare (S754_finite s m e) (S754_finite s' m' e') = Some Eq ->
  S754_finite s' m' e' = S754_finite s m e.
Proof.
  cbn [SFcompare]. intros [= H].
  destruct s, s'; try discriminate H;
    destruct (Z.compare_spec e e') as [->|L|G]; try discriminate H.
  - apply (f_equal CompOpp) in H. rewrite CompOpp_involutive in H.
    cbn [CompOpp] in H. fold (Pos.compare m m') in H.
    apply Pos.compare_eq in H. now subst.
  - fold (Pos.compare m m') in H. apply Pos.compare_eq in H. now subst.
Qed.

Lemma float_eq_int (f : spec_float) (z : Z) :
  valid_binary prec emax f = true ->
  float_int_compare f z = Some Eq ->
  (exists s, f = S754_zero s /\ z = 0) \/
  (exists s m e, f = S754_finite s m e /\ int_to_float z = inr f).
Proof.
  intros V C. destruct f as [s|s| |s m e].
  - left. exists s. split; [reflexivity|].
    cbn [float_int_compare] in C. injection C as C.
    destruct z; [reflexivity|discriminate C|discriminate C].
  - destruct s; discriminate C.
  - discriminate C.
  - right. exists s, m, e. split; [reflexivity|].
    now apply int_to_float_exact.
Qed.

Lemma float_eq_float (f g : spec_float) :
  SFcompare f g = Some Eq ->
  (exists s t, f = S754_zero s /\ g = S754_zero t) \/
  (exists s, f = S754_infinity s /\ g = f) \/
  (exists s m e, f = S754_finite s m e /\ g = f).
Proof.
  destruct f as [s|s| |s m e], g as [t|t| |t n e']; intros H;
    try discriminate H;
    try (destruct s; discriminate H); try (destruct t; discriminate H).
  - left. eauto.
  - right. left. exists s. split; [reflexivity|].
    destruct s, t; try discriminate H; reflexivity.
  - right. right. exists s, m, e. split; [reflexivity|].
    now apply SFcompare_eq_finite.
Qed.

Lemma compare_flip (c : option comparison) :
  option_map CompOpp c = Some Eq -> c = Some Eq.
Proof. destruct c as [[]|]; cbn; congruence. Qed.

Lemma py_sub_equal (x y : number) :
  host_number x = true -> host_number y = true ->
  finite x = true -> py_eq x y = true ->
  exists d, py_sub x y = inr d /\ py_eq d (PInt 0) = true.
Proof.
  intros Vx Vy F E. unfold py_eq in E.
  destruct (py_compare x y) as [[]|] eqn:C; try discriminate E. clear E.
  destruct x as [a|f], y as [b|g]; cbn [py_compare host_number] in *.
  - injection C as C. apply Z.compare_eq in C. subst b.
    apply (py_sub_self (PInt a)). reflexivity.
  - apply compare_flip in C.
    destruct (float_eq_int g a Vy C) as [(s & -> & ->)|(s & m & e & -> & I)].
    + exists (PFloat (S754_zero false)). split; [|reflexivity].
      destruct s; reflexivity.
    + unfold py_sub, float_binop. cbn [as_float]. rewrite I.
      rewrite SFsub_self by reflexivity.
      exists (PFloat (S754_zero false)). split; reflexivity.
  - destruct (float_eq_int f b Vx C) as [(s & -> & ->)|(s & m & e & -> & I)].
    + exists (PFloat (S754_zero s)). split; [|reflexivity].
      destruct s; reflexivity.
    + unfold py_sub, float_binop. cbn [as_float]. rewrite I.
      rewrite SFsub_self by reflexivity.
      exists (PFloat (S754_zero false)). split; reflexivity.
  - destruct (float_eq_float f g C)
      as [(s & t & -> & ->)|[(s & -> & ->)|(s & m & e & -> & ->)]].
    + eexists. split; [reflexivity|]. destruct s, t; reflexivity.
    + discriminate F.
    + apply (py_sub_self (PFloat (S754_finite s m e))). reflexivity.
Qed.

Lemma py_truediv_equal (x y : number) :
  host_number x = true -> host_number y = true ->
  finite x = true -> py_ne x (PInt 0) = true -> py_eq x y = true ->
  py_truediv x y = inr (PFloat one).
Proof.
  intros Vx Vy F N E. unfold py_eq in E.
  destruct (py_compare x y) as [[]|] eqn:C; try discriminate E. clear E.
  destruct x as [a|f], y as [b|g]; cbn [py_compare host_number] in *.
  - injection C as C. apply Z.compare_eq in C. subst b.
    now apply py_truediv_self.
  - apply compare_flip in C.
    destruct (float_eq_int g a Vy C) as [(s & -> & ->)|(s & m & e & -> & I)].
    + discriminate N.
    + unfold py_truediv. cbn [as_float]. rewrite I. cbn [float_is_zero].
      now rewrite SFdiv_self.
  - destruct (float_eq_int f b Vx C) as [(s & -> & ->)|(s & m & e & -> & I)].
    + destruct s; discriminate N.
    + unfold py_truediv. cbn [as_float]. rewrite I. cbn [float_is_zero].
      now rewrite SFdiv_self.
  - destruct (float_eq_float f g C)
      as [(s & t & -> & ->)|[(s & -> & ->)|(s & m & e & -> & ->)]].
    + destruct s; discriminate N.
    + discriminate F.
    + now apply py_truediv_self.
Qed.

Lemma zip_sub_equal (u v : list number) :
  forallb host_number u = true -> forallb host_number v = true ->
  forallb finite u = true -> unit_eqb u v = true ->
  exists d, zip_result (fun x y => lift (py_sub x y)) u v = Ok d /\
            all_zero d = true /\ List.length d = List.length u.
Proof.
  revert v. induction u as [|x u IH]; intros [|y v] Vu Vv F E;
    try discriminate E.
  - exists []. repeat split.
  - cbn [forallb unit_eqb] in *.
    apply andb_prop in Vu as [Vx Vu]. apply andb_prop in Vv as [Vy Vv].
    apply andb_prop in F as [Fx F]. apply andb_prop in E as [Ex E].
    destruct (py_sub_equal x y Vx Vy Fx Ex) as (d0 & Hd0 & Hz0).
    destruct (IH v Vu Vv F E) as (d & Hd & Hz & Hl).
    exists (d0 :: d). split; [|split].
    + cbn [zip_result]. rewrite Hd0. cbn [bind lift]. rewrite Hd. reflexivity.
    + unfold all_zero in *. cbn [forallb]. rewrite Hz0, Hz. reflexivity.
    + cbn [List.length]. rewrite Hl. reflexivity.
Qed.

(** C6 (as amended). For an instance [a] whose magnitude and exponents
    are finite numbers (ints or finite floats) and whose magnitude is not
    zero, [a / a], and [a / b] for every [b] whose magnitude and exponents
    equal those of [a] (the same numbers, or numbers that compare equal,
    as the int [5] and the float [5.0] do), is the bare float [1.0], not
    an instance, and [1.0 == 1]. *)
Theorem truediv_self_collapses (a b : Quantity) :
  well_formed a ->
  finite (value a) = true -> forallb finite (unit a) = true ->
  py_ne (value a) (PInt 0) = true ->
  (value b = value a -> unit b = unit a ->
   __truediv__ a (Qty b) = Ok (ONum (PFloat one))) /\
  (forallb host_number (value a :: unit a) = true ->
   forallb host_number (value b :: unit b) = true ->
   py_eq (value a) (value b) = true ->
   unit_eqb (unit a) (unit b) = true ->
   __truediv__ a (Qty b) = Ok (ONum (PFloat one))) /\
  py_eq (PFloat one) (PInt 1) = true.
Proof.
  intros [Hlen _] Hfv Hfu Hnz. split; [|split; [|reflexivity]].
  - intros Hv Hu. unfold __truediv__. rewrite Hv, Hu.
    destruct (zip_sub_self (unit a) Hfu) as (d & Hd & Hz & Hl).
    rewrite Hd, (py_truediv_self (value a) Hfv Hnz). cbn [bind lift].
    rewrite make_spec by congruence. now rewrite Hz.
  - intros Va Vb Ev Eu. cbn [forallb] in Va, Vb.
    apply andb_prop in Va as [Va Vua]. apply andb_prop in Vb as [Vb Vub].
    unfold __truediv__.
    destruct (zip_sub_equal _ _ Vua Vub Hfu Eu) as (d & Hd & Hz & Hl).
    rewrite Hd, (py_truediv_equal _ _ Va Vb Hfv Hnz Ev). cbn [bind lift].
    rewrite make_spec by congruence. now rewrite Hz.
Qed.

Lemma truediv_self_collapses_witness :
  (well_formed length_m /\ finite (value length_m) = true /\
   forallb finite (unit length_m) = true /\
   py_ne (value length_m) (PInt 0) = true) /\
  __truediv__ length_m (Qty length_m) = Ok (ONum (PFloat one)) /\
  __truediv__ length_m (Qty float_length) = Ok (ONum (PFloat one)).
Proof.
  assert (Hwf : well_formed length_m) by (split; reflexivity).
  split; [repeat split|]. split.
  - exact (proj1 (truediv_self_collapses length_m length_m Hwf
                    eq_refl eq_refl eq_refl) eq_refl eq_refl).
  - exact (proj1 (proj2 (truediv_self_collapses length_m float_length Hwf
                           eq_refl eq_refl eq_refl))
             eq_refl eq_refl eq_refl eq_refl).
Defined.

(** * Further properties *)

(** ** Compatibility errors and the class invariant *)

Lemma assert_compatible_quantities (a b : Quantity) :
  assert_compatible a (OQuantity b) =
  if unit_eqb (unit a) (unit b) then Ok tt
  else Raise (IncompatibleUnits (Some (as_tuple (unit a)))
                                (Some (as_tuple (unit b)))).
Proof.
  unfold assert_compatible. rewrite compatible_quantities. cbn [bind].
  destruct (unit_eqb (unit a) (unit b)); reflexivity.
Qed.






Lemma make_proper (v : number) (u : list number) (r : pyobj) :
  make v u = Ok r -> proper r.
Proof.
  unfold make. intros H.
  destruct r as [| x | | | q | |]; try exact I;
    try (unfold construct in H;
         destruct (__new__ v (UnitTuple u) defaults); [|discriminate H];
         destruct (__init__ v (UnitTuple u) defaults); discriminate H).
  exact (construct_well_formed v (UnitTuple u) defaults q I H).
Qed.

(** X3. The class invariant is kept by every arithmetic method:
    whatever [abs], negation, [+], [-], [*], [/], [//] (direct or
    reflected), [invert], [**], [root] and [sqrt] return is either a bare
    number or an instance with seven exponents that are not all zero. *)
Theorem results_are_proper (power : number -> number -> result number)
    (a : Quantity) (o : pyobj) (p : operand) (n : number) (r : pyobj) :
  (__abs__ a = Ok r -> proper r) /\
  (__neg__ a = Ok r -> proper r) /\
  (__add__ a o = Ok r -> proper r) /\
  (__radd__ a o = Ok r -> proper r) /\
  (__sub__ a o = Ok r -> proper r) /\
  (__rsub__ a o = Ok r -> proper r) /\
  (__mul__ a p = Ok r -> proper r) /\
  (__rmul__ a p = Ok r -> proper r) /\
  (invert a = Ok r -> proper r) /\
  (__truediv__ a p = Ok r -> proper r) /\
  (__rtruediv__ a p = Ok r -> proper r) /\
  (__floordiv__ a p = Ok r -> proper r) /\
  (__rfloordiv__ a p = Ok r -> proper r) /\
  (__pow__ power a n = Ok r -> proper r) /\
  (root power a n = Ok r -> proper r) /\
  (sqrt power a = Ok r -> proper r).
Proof.
  unfold __abs__, __neg__, __radd__, __add__, __sub__, __rsub__, __rmul__,
    __mul__, invert, __truediv__, __rtruediv__, __floordiv__, __rfloordiv__,
    __pow__, sqrt, root.
  repeat split; intros H; try destruct p; bind_cases H;
    exact (make_proper _ _ _ H).
Qed.

(** ** Sign, difference and scalar operands *)

Lemma py_neg_involutive (x : number) : py_neg (py_neg x) = x.
Proof.
  destruct x as [z|f]; cbn.
  - now rewrite Z.opp_involutive.
  - destruct f; cbn; try reflexivity; now rewrite negb_involutive.
Qed.

Lemma py_abs_neg (x : number) : py_abs (py_neg x) = py_abs x.
Proof.
  destruct x as [z|f]; cbn.
  - now rewrite Z.abs_opp.
  - destruct f; reflexivity.
Qed.

Lemma py_abs_idempotent (x : number) : py_abs (py_abs x) = py_abs x.
Proof.
  destruct x as [z|f]; cbn.
  - f_equal. apply Z.abs_eq, Z.abs_nonneg.
  - destruct f; reflexivity.
Qed.

Lemma py_abs_not_negative (x : number) : py_lt (py_abs x) (PInt 0) = false.
Proof.
  destruct x as [z|f].
  - unfold py_abs, py_lt, py_compare. pose proof (Z.abs_nonneg z).
    destruct (Z.compare_spec (Z.abs z) 0); try reflexivity; lia.
  - destruct f as [sg|sg| |sg m e]; try reflexivity.
    cbv [py_abs SFabs py_lt py_compare float_int_compare].
    destruct (0 <=? e); [|reflexivity].
    pose proof (Z.pow_nonneg 2 e ltac:(lia)).
    destruct (Z.compare_spec (Z.pos m * 2 ^ e) 0); try reflexivity; nia.
Qed.

Lemma record_eta (a : Quantity) :
  mkQuantity (value a) (unit a) = a.
Proof. destruct a; reflexivity. Qed.

(** X4. Negating an instance gives an instance with the same exponents,
    and negating twice gives back the original quantity. *)
Theorem neg_involution (a : Quantity) :
  well_formed a ->
  exists q,
    __neg__ a = Ok (OQuantity q) /\
    unit q = unit a /\
    __neg__ q = Ok (OQuantity a).
Proof.
  intros W. exists {| value := py_neg (value a); unit := unit a |}.
  split; [exact (well_formed_make a _ W)|]. split; [reflexivity|].
  unfold __neg__. cbn [value unit].
  rewrite (well_formed_make a _ W), py_neg_involutive, record_eta. reflexivity.
Qed.

Lemma neg_involution_witness :
  well_formed length_m /\
  exists q, __neg__ length_m = Ok (OQuantity q) /\
            unit q = unit length_m /\
            __neg__ q = Ok (OQuantity length_m).
Proof.
  assert (W : well_formed length_m) by (split; reflexivity).
  split; [exact W|]. exact (neg_involution length_m W).
Defined.

(** X5. The absolute value of an instance is an instance with the same
    exponents whose magnitude is not below zero; taking it again changes
    nothing, and the absolute value of the negated quantity is the
    same. *)
Theorem abs_magnitude (a : Quantity) :
  well_formed a ->
  exists q,
    __abs__ a = Ok (OQuantity q) /\
    unit q = unit a /\
    py_lt (value q) (PInt 0) = false /\
    __abs__ q = Ok (OQuantity q) /\
    (forall n, __neg__ a = Ok (OQuantity n) -> __abs__ n = Ok (OQuantity q)).
Proof.
  intros W. exists {| value := py_abs (value a); unit := unit a |}.
  split; [exact (well_formed_make a _ W)|]. split; [reflexivity|].
  split; [apply py_abs_not_negative|]. split.
  - unfold __abs__. cbn [value unit].
    rewrite (well_formed_make a _ W), py_abs_idempotent. reflexivity.
  - intros n H. unfold __neg__ in H. rewrite (well_formed_make a _ W) in H.
    injection H as <-. unfold __abs__. cbn [value unit].
    rewrite (well_formed_make a _ W), py_abs_neg. reflexivity.
Qed.

Lemma abs_magnitude_witness :
  well_formed length_m /\
  exists q, __abs__ length_m = Ok (OQuantity q) /\
    unit q = unit length_m /\
    py_lt (value q) (PInt 0) = false /\
    __abs__ q = Ok (OQuantity q) /\
    (forall n, __neg__ length_m = Ok (OQuantity n) ->
               __abs__ n = Ok (OQuantity q)).
Proof.
  assert (W : well_formed length_m) by (split; reflexivity).
  split; [exact W|]. exact (abs_magnitude length_m W).
Defined.

Lemma py_compare_refl (x : number) :
  is_NaN x = false -> py_compare x x = Some Eq.
Proof.
  destruct x as [z|f]; cbn [is_NaN py_compare].
  - intros _. now rewrite Z.compare_refl.
  - destruct f as [sg|sg| |sg m e]; intros H; try discriminate H.
    + reflexivity.
    + destruct sg; reflexivity.
    + cbn. rewrite Z.compare_refl.
      fold (Pos.compare m m). rewrite Pos.compare_refl.
      destruct sg; reflexivity.
Qed.

Lemma unit_eqb_refl (u : list number) :
  no_NaN u = true -> unit_eqb u u = true.
Proof.
  induction u as [|x u IH]; [reflexivity|].
  cbn [no_NaN forallb unit_eqb]. intros H.
  apply andb_prop in H as [Hx Hu].
  unfold py_eq. rewrite py_compare_refl by now apply negb_true_iff.
  exact (IH Hu).
Qed.

(** X6. Unlike [a / a], the difference [a - a] does not collapse: for
    an instance with a finite magnitude (and no NaN among its exponents)
    it is an instance with the exponents of [a] and a zero magnitude,
    hence falsy. *)
Theorem sub_self_keeps_dimension (a : Quantity) :
  well_formed a ->
  no_NaN (unit a) = true ->
  finite (value a) = true ->
  exists q,
    __sub__ a (OQuantity a) = Ok (OQuantity q) /\
    unit q = unit a /\
    py_eq (value q) (PInt 0) = true /\
    __bool__ q = false.
Proof.
  intros W N F.
  destruct (py_sub_self (value a) F) as [d [Hd Hz]].
  exists {| value := d; unit := unit a |}.
  unfold __sub__. rewrite assert_compatible_quantities, (unit_eqb_refl _ N).
  cbn [bind getattr_value]. rewrite Hd. cbn [bind lift].
  split; [exact (well_formed_make a d W)|]. split; [reflexivity|].
  split; [exact Hz|].
  unfold __bool__, __nonzero__. cbn [value].
  rewrite py_bool_ne_zero. unfold py_ne. rewrite Hz. reflexivity.
Qed.

Lemma sub_self_keeps_dimension_witness :
  (well_formed length_m /\ no_NaN (unit length_m) = true /\
   finite (value length_m) = true) /\
  exists q,
    __sub__ length_m (OQuantity length_m) = Ok (OQuantity q) /\
    unit q = unit length_m /\
    py_eq (value q) (PInt 0) = true /\
    __bool__ q = false.
Proof.
  assert (W : well_formed length_m) by (split; reflexivity).
  split; [repeat split; reflexivity|].
  exact (sub_self_keeps_dimension length_m W eq_refl eq_refl).
Defined.

(** X7. With a plain number as the other operand, [*] (direct or
    reflected), [/] and [//] only touch the magnitude: the result is an
    instance with the exponents of [a] (also when the number is zero), or
    the error of the arithmetic on the magnitudes. *)
Theorem scalar_operand_keeps_unit (a : Quantity) (x : number) :
  well_formed a ->
  let instance v := Ok (OQuantity {| value := v; unit := unit a |}) in
  __mul__ a (Scalar x) = (v <- lift (py_mul (value a) x) ;; instance v) /\
  __rmul__ a (Scalar x) = (v <- lift (py_mul (value a) x) ;; instance v) /\
  __truediv__ a (Scalar x)
  = (v <- lift (py_truediv (value a) x) ;; instance v) /\
  __floordiv__ a (Scalar x)
  = (v <- lift (py_floordiv (value a) x) ;; instance v).
Proof.
  intros W instance.
  unfold __rmul__, __mul__, __truediv__, __floordiv__, instance.
  repeat split;
    match goal with
    | |- bind ?e _ = _ => destruct e as [v|err]; cbn [bind];
        [exact (well_formed_make a v W)|reflexivity]
    end.
Qed.

Lemma scalar_operand_keeps_unit_witness :
  well_formed length_m /\
  __mul__ length_m (Scalar (PInt 0))
  = Ok (OQuantity {| value := PInt 0; unit := unit length_m |}).
Proof.
  assert (W : well_formed length_m) by (split; reflexivity).
  split; [exact W|].
  exact (proj1 (scalar_operand_keeps_unit length_m (PInt 0) W)).
Defined.

(** ** Products, quotients and inverses *)

Lemma SFadd_comm (f g : spec_float) :
  SFadd prec emax f g = SFadd prec emax g f.
Proof.
  destruct f as [s|s| |s m e], g as [t|t| |t n e']; try reflexivity;
    try (destruct s, t; reflexivity).
  cbn [SFadd]. rewrite (Z.min_comm e' e), Z.add_comm. reflexivity.
Qed.

Lemma SFmul_comm (f g : spec_float) :
  SFmul prec emax f g = SFmul prec emax g f.
Proof.
  destruct f as [s|s| |s m e], g as [t|t| |t n e']; try reflexivity;
    try (cbn [SFmul]; rewrite (xorb_comm t s); reflexivity).
  cbn [SFmul]. rewrite (xorb_comm t s), (Pos.mul_comm n m), (Z.add_comm e' e).
  reflexivity.
Qed.

Lemma as_float_error (x : number) (e : arith_error) :
  as_float x = inl e -> e = Overflow.
Proof.
  destruct x as [z|f]; cbn [as_float]; [|discriminate].
  unfold int_to_float. destruct (is_inf _); [|discriminate].
  now intros [= <-].
Qed.

Lemma float_binop_comm (op : spec_float -> spec_float -> spec_float)
    (x y : number) :
  (forall f g, op f g = op g f) ->
  float_binop op x y = float_binop op y x.
Proof.
  intros C. unfold float_binop.
  destruct (as_float x) as [e|f] eqn:Ex, (as_float y) as [e'|g] eqn:Ey;
    try reflexivity.
  - now rewrite (as_float_error _ _ Ex), (as_float_error _ _ Ey).
  - now rewrite C.
Qed.

Lemma py_add_comm (x y : number) : py_add x y = py_add y x.
Proof.
  destruct x as [a|f], y as [b|g]; cbn [py_add];
    try apply (float_binop_comm _ _ _ SFadd_comm).
  now rewrite Z.add_comm.
Qed.

Lemma py_mul_comm (x y : number) : py_mul x y = py_mul y x.
Proof.
  destruct x as [a|f], y as [b|g]; cbn [py_mul];
    try apply (float_binop_comm _ _ _ SFmul_comm).
  now rewrite Z.mul_comm.
Qed.

Lemma zip_result_flip {A B C : Type} (f : A -> B -> result C)
    (u : list A) (v : list B) :
  zip_result f u v = zip_result (fun b a => f a b) v u.
Proof.
  revert v. induction u as [|a u IH]; intros [|b v]; try reflexivity.
  cbn [zip_result]. now rewrite IH.
Qed.

Lemma zip_result_ext {A B C : Type} (f g : A -> B -> result C)
    (u : list A) (v : list B) :
  (forall a b, f a b = g a b) -> zip_result f u v = zip_result g u v.
Proof.
  intros E. revert v. induction u as [|a u IH]; intros [|b v]; try reflexivity.
  cbn [zip_result]. now rewrite E, IH.
Qed.

(** X8. Multiplication of two quantities is commutative, errors
    included: [a * b] and [b * a] return the same value or raise the same
    exception; with a plain number the reflected product is the direct
    one. *)
Theorem mul_commutative (a b : Quantity) (x : number) :
  __mul__ a (Qty b) = __mul__ b (Qty a) /\
  __rmul__ a (Scalar x) = __mul__ a (Scalar x).
Proof.
  split; [|reflexivity].
  unfold __mul__.
  rewrite (zip_result_flip _ (unit a) (unit b)).
  rewrite (zip_result_ext _ (fun x y => lift (py_add x y)) (unit b) (unit a))
    by (intros; now rewrite py_add_comm).
  now rewrite (py_mul_comm (value a) (value b)).
Qed.

(** X9. The reflected divisions applied to a quantity compute the
    direct division with the operands swapped, and [a.invert()] is
    [1 / a]. *)
Theorem reflected_division (a b : Quantity) :
  __rtruediv__ b (Qty a) = __truediv__ a (Qty b) /\
  __rfloordiv__ b (Qty a) = __floordiv__ a (Qty b) /\
  invert a = __rtruediv__ a (Scalar (PInt 1)).
Proof.
  unfold __rtruediv__, __truediv__, __rfloordiv__, __floordiv__, invert.
  rewrite (zip_result_flip _ (unit b) (unit a)).
  repeat split; reflexivity.
Qed.

Lemma py_eq_neg_zero (t : number) :
  py_eq (py_neg t) (PInt 0) = py_eq t (PInt 0).
Proof.
  destruct t as [z|f].
  - unfold py_eq, py_neg, py_compare.
    destruct (Z.compare_spec (- z) 0), (Z.compare_spec z 0);
      try reflexivity; lia.
  - destruct f as [sg|sg| |sg m e]; try reflexivity.
    + destruct sg; reflexivity.
    + unfold py_eq, py_neg, py_compare, SFopp, float_int_compare.
      pose proof (Z.pow_pos_nonneg 2 e ltac:(lia)) as P.
      destruct (Z.leb_spec 0 e) as [He|He].
      * specialize (P He).
        destruct sg; cbn [negb];
        destruct (Z.compare_spec (Z.neg m * 2 ^ e) 0),
                 (Z.compare_spec (Z.pos m * 2 ^ e) 0);
          try reflexivity; nia.
      * rewrite Z.mul_0_l. destruct sg; reflexivity.
Qed.

Lemma all_zero_neg (u : list number) :
  all_zero (map py_neg u) = all_zero u.
Proof.
  induction u as [|t u IH]; [reflexivity|].
  unfold all_zero in *. cbn [map forallb]. now rewrite py_eq_neg_zero, IH.
Qed.

Lemma make_neg_units (a : Quantity) (v : number) :
  well_formed a ->
  make v (map py_neg (unit a))
  = Ok (OQuantity {| value := v; unit := map py_neg (unit a) |}).
Proof.
  intros [L Z]. rewrite make_spec by now rewrite length_map.
  now rewrite all_zero_neg, Z.
Qed.

Lemma reciprocal_of_nonzero (x : number) :
  py_bool x = true -> exists r, py_truediv (PInt 1) x = inr (PFloat r).
Proof.
  destruct x as [z|f]; cbn [py_bool]; intros H.
  - apply reciprocal_defined. apply negb_true_iff, Z.eqb_neq in H. exact H.
  - exists (SFdiv prec emax one f).
    apply negb_true_iff in H. unfold py_truediv.
    change (as_float (PInt 1)) with (@inr arith_error _ one).
    cbn [as_float]. now rewrite H.
Qed.

Lemma reciprocal_of_zero (x : number) :
  py_bool x = false -> py_truediv (PInt 1) x = inl ZeroDivision.
Proof.
  destruct x as [z|f]; cbn [py_bool]; intros H; apply negb_false_iff in H.
  - apply Z.eqb_eq in H. subst z. reflexivity.
  - unfold py_truediv.
    change (as_float (PInt 1)) with (@inr arith_error _ one).
    cbn [as_float]. now rewrite H.
Qed.

(** X10. [invert] raises [ZeroDivisionError] exactly when the magnitude
    is zero; otherwise it returns an instance whose magnitude is the
    float [1 / value] and whose exponents are all negated. *)
Theorem invert_raises_iff_zero (a : Quantity) :
  well_formed a ->
  (__bool__ a = false -> invert a = Raise ZeroDivisionError) /\
  (__bool__ a = true ->
     exists r,
       py_truediv (PInt 1) (value a) = inr (PFloat r) /\
       invert a = Ok (OQuantity {| value := PFloat r;
                                   unit := map py_neg (unit a) |})).
Proof.
  intros W. unfold __bool__, __nonzero__, invert. split; intros H.
  - rewrite reciprocal_of_zero; [reflexivity|].
    destruct (py_bool (value a)); [discriminate H|reflexivity].
  - destruct (reciprocal_of_nonzero (value a)) as [r Hr].
    { destruct (py_bool (value a)); [reflexivity|discriminate H]. }
    exists r. split; [exact Hr|]. rewrite Hr. cbn [bind lift].
    exact (make_neg_units a _ W).
Qed.

Lemma invert_raises_iff_zero_witness :
  well_formed length_m /\
  exists r,
    py_truediv (PInt 1) (value length_m) = inr (PFloat r) /\
    invert length_m = Ok (OQuantity {| value := PFloat r;
                                      unit := map py_neg (unit length_m) |}).
Proof.
  assert (W : well_formed length_m) by (split; reflexivity).
  split; [exact W|].
  exact (proj2 (invert_raises_iff_zero length_m W) eq_refl).
Defined.

Lemma SFadd_opp (f : spec_float) :
  is_nan f = false -> is_inf f = false ->
  SFadd prec emax f (SFopp f) = S754_zero false.
Proof.
  destruct f as [sg|sg| |sg p e]; intros Hn Hi; try discriminate.
  - destruct sg; reflexivity.
  - unfold SFopp, SFadd. rewrite Z.min_id.
    replace (cond_Zopp sg (Z.pos (fst (shl_align p e e))) +
             cond_Zopp (negb sg) (Z.pos (fst (shl_align p e e)))) with 0
      by (destruct sg; cbn [cond_Zopp negb]; lia).
    reflexivity.
Qed.

Lemma py_add_neg (t : number) :
  finite t = true ->
  exists d, py_add t (py_neg t) = inr d /\ py_eq d (PInt 0) = true.
Proof.
  intros Hf. destruct t as [z|f].
  - exists (PInt 0). cbn [py_neg py_add]. rewrite Z.add_opp_diag_r.
    split; reflexivity.
  - exists (PFloat (S754_zero false)). split; [|reflexivity].
    unfold py_neg, py_add, float_binop. cbn [as_float].
    rewrite SFadd_opp; [reflexivity| |]; destruct f; try reflexivity;
      discriminate Hf.
Qed.

Lemma zip_add_neg (u : list number) :
  forallb finite u = true ->
  exists d, zip_result (fun x y => lift (py_add x y)) u (map py_neg u) = Ok d /\
            all_zero d = true /\ List.length d = List.length u.
Proof.
  induction u as [|t u IH]; cbn [forallb map zip_result]; intros H.
  - exists []. repeat split.
  - apply andb_prop in H as [Ht Hu].
    destruct (py_add_neg t Ht) as (d0 & Hd0 & Hz0).
    destruct (IH Hu) as (d & Hd & Hz & Hl).
    exists (d0 :: d). split; [|split].
    + rewrite Hd0. cbn [bind lift]. rewrite Hd. reflexivity.
    + unfold all_zero in *. cbn [forallb]. rewrite Hz0, Hz. reflexivity.
    + cbn [List.length]. rewrite Hl. reflexivity.
Qed.

(** X11. A quantity times its inverse is dimensionless: for finite
    exponents, [a * a.invert()] is a bare number (the product of the two
    magnitudes), not an instance. *)
Theorem mul_by_inverse_collapses (a q : Quantity) :
  well_formed a ->
  forallb finite (unit a) = true ->
  invert a = Ok (OQuantity q) ->
  unit q = map py_neg (unit a) /\
  __mul__ a (Qty q)
  = (v <- lift (py_mul (value a) (value q)) ;; Ok (ONum v)).
Proof.
  intros W F H.
  assert (U : unit q = map py_neg (unit a)).
  { unfold invert in H.
    destruct (lift (py_truediv (PInt 1) (value a))) as [v|e];
      [|discriminate H].
    cbn [bind] in H. rewrite (make_neg_units a v W) in H.
    now injection H as <-. }
  split; [exact U|].
  unfold __mul__. rewrite U.
  destruct (zip_add_neg (unit a) F) as (d & Hd & Hz & Hl).
  rewrite Hd. cbn [bind].
  destruct (lift (py_mul (value a) (value q))) as [v|e]; [|reflexivity].
  cbn [bind]. rewrite make_spec by (rewrite Hl; exact (proj1 W)).
  now rewrite Hz.
Qed.

Lemma mul_by_inverse_collapses_witness :
  (well_formed L /\ forallb finite (unit L) = true /\
   invert L = Ok (OQuantity per_L)) /\
  __mul__ L (Qty per_L) = Ok (ONum (PFloat one)).
Proof.
  assert (W : well_formed L) by (split; reflexivity).
  assert (I : invert L = Ok (OQuantity per_L)) by (vm_compute; reflexivity).
  split; [split; [exact W|split; [reflexivity|exact I]]|].
  rewrite (proj2 (mul_by_inverse_collapses L per_L W eq_refl I)).
  vm_compute. reflexivity.
Defined.

Lemma make_dimension (v v' : number) (u : list number) (r r' : pyobj) :
  make v u = Ok r -> make v' u = Ok r' -> dimension_of r = dimension_of r'.
Proof.
  unfold make, construct. rewrite !new_collapse.
  destruct (all_zero u).
  - intros [= <-] [= <-]. reflexivity.
  - cbn [__init__]. destruct (List.length u =? 7)%nat; cbn [bind].
    + intros [= <-] [= <-]. reflexivity.
    + discriminate.
Qed.

(** X12. Floor division handles the dimension exactly as true division
    does: whenever both return, they either both collapse to a bare
    number or both give instances with the same exponents.  The same
    holds for the reflected forms and for a plain number as operand. *)
Theorem floordiv_dimension (a b : Quantity) (x : number) (r r' : pyobj) :
  (__floordiv__ a (Qty b) = Ok r -> __truediv__ a (Qty b) = Ok r' ->
   dimension_of r = dimension_of r') /\
  (__rfloordiv__ a (Qty b) = Ok r -> __rtruediv__ a (Qty b) = Ok r' ->
   dimension_of r = dimension_of r') /\
  (__floordiv__ a (Scalar x) = Ok r -> __truediv__ a (Scalar x) = Ok r' ->
   dimension_of r = dimension_of r') /\
  (__rfloordiv__ a (Scalar x) = Ok r -> __rtruediv__ a (Scalar x) = Ok r' ->
   dimension_of r = dimension_of r').
Proof.
  unfold __floordiv__, __truediv__, __rfloordiv__, __rtruediv__.
  repeat split;
    try (destruct (zip_result _ _ _); cbn [bind]; [|discriminate]);
    intros H H'; bind_cases H; bind_cases H';
    exact (make_dimension _ _ _ _ _ H H').
Qed.

(** ** Comparison of compatible quantities *)

Lemma SFcompare_antisym (f g : spec_float) :
  SFcompare g f = option_map CompOpp (SFcompare f g).
Proof.
  destruct f as [s|s| |s m e], g as [t|t| |t n e']; try reflexivity;
    try (destruct s; reflexivity); try (destruct t; reflexivity);
    try (destruct s, t; reflexivity).
  cbn [SFcompare option_map]. f_equal.
  rewrite (Z.compare_antisym e e').
  destruct s, t; try reflexivity; destruct (e ?= e'); cbn [CompOpp];
    try reflexivity.
  - f_equal. exact (eq_sym (Pos.compare_cont_antisym m n Eq)).
  - exact (eq_sym (Pos.compare_cont_antisym m n Eq)).
Qed.

Lemma py_compare_antisym (x y : number) :
  py_compare y x = option_map CompOpp (py_compare x y).
Proof.
  destruct x as [a|f], y as [b|g]; cbn [py_compare].
  - cbn [option_map]. now rewrite (Z.compare_antisym a b).
  - destruct (float_int_compare g a) as [c|]; cbn [option_map];
      [now rewrite CompOpp_involutive|reflexivity].
  - reflexivity.
  - apply SFcompare_antisym.
Qed.

Lemma py_eq_sym (x y : number) : py_eq x y = py_eq y x.
Proof.
  unfold py_eq. rewrite (py_compare_antisym x y).
  destruct (py_compare x y) as [[]|]; reflexivity.
Qed.

Lemma py_gt_lt (x y : number) : py_gt y x = py_lt x y.
Proof.
  unfold py_gt, py_lt. rewrite (py_compare_antisym x y).
  destruct (py_compare x y) as [[]|]; reflexivity.
Qed.

Lemma py_ge_le (x y : number) : py_ge y x = py_le x y.
Proof.
  unfold py_ge, py_le. rewrite (py_compare_antisym x y).
  destruct (py_compare x y) as [[]|]; reflexivity.
Qed.

Lemma unit_eqb_sym (u v : list number) : unit_eqb u v = unit_eqb v u.
Proof.
  revert v. induction u as [|x u IH]; intros [|y v]; try reflexivity.
  cbn [unit_eqb]. now rewrite py_eq_sym, IH.
Qed.

Lemma eq_compatible (a b : Quantity) :
  unit_eqb (unit a) (unit b) = true ->
  __eq__ a (OQuantity b) = Ok (py_eq (value a) (value b)).
Proof.
  intros C. unfold __eq__.
  rewrite assert_compatible_quantities, C. cbn [bind getattr_value].
  destruct (py_eq (value a) (value b)); [|reflexivity].
  cbn [getattr_unit bind tuple_eq as_tuple]. rewrite items_eq_numbers.
  now rewrite C.
Qed.

Lemma order_compatible (a b : Quantity) :
  unit_eqb (unit a) (unit b) = true ->
  __lt__ a (OQuantity b) = Ok (py_lt (value a) (value b)) /\
  __le__ a (OQuantity b) = Ok (py_le (value a) (value b)) /\
  __gt__ a (OQuantity b) = Ok (py_gt (value a) (value b)) /\
  __ge__ a (OQuantity b) = Ok (py_ge (value a) (value b)).
Proof.
  intros C. unfold __lt__, __le__, __gt__, __ge__.
  rewrite assert_compatible_quantities, C. repeat split; reflexivity.
Qed.

(** X13. Compatibility of two quantities is symmetric, and on
    compatible quantities the comparisons are consistent under swapping
    the operands: [a == b] is [b == a], [a != b] is [b != a], [a < b] is
    [b > a] and [a <= b] is [b >= a]. *)
Theorem compatible_symmetric (a b : Quantity) :
  compatible a (OQuantity b) = compatible b (OQuantity a) /\
  (unit_eqb (unit a) (unit b) = true ->
   __eq__ a (OQuantity b) = __eq__ b (OQuantity a) /\
   __ne__ a (OQuantity b) = __ne__ b (OQuantity a) /\
   __lt__ a (OQuantity b) = __gt__ b (OQuantity a) /\
   __le__ a (OQuantity b) = __ge__ b (OQuantity a)).
Proof.
  split.
  - rewrite !compatible_quantities. now rewrite unit_eqb_sym.
  - intros C. assert (C' := C). rewrite unit_eqb_sym in C'.
    destruct (order_compatible a b C) as (Hlt & Hle & _ & _).
    destruct (order_compatible b a C') as (_ & _ & Hgt & Hge).
    unfold __ne__.
    rewrite (eq_compatible a b C), (eq_compatible b a C'), Hlt, Hle, Hgt, Hge.
    rewrite (py_eq_sym (value b) (value a)), py_gt_lt, py_ge_le.
    repeat split; reflexivity.
Qed.

Lemma py_compare_defined (x y : number) :
  is_NaN x = false -> is_NaN y = false -> exists c, py_compare x y = Some c.
Proof.
  intros Nx Ny.
  destruct x as [a|f], y as [b|g]; cbn [py_compare].
  - eauto.
  - destruct g; try discriminate Ny; cbn; eauto.
  - destruct f; try discriminate Nx; cbn; eauto.
  - destruct f, g; try discriminate Nx; try discriminate Ny; cbn; eauto.
Qed.

Lemma py_compare_NaN (x y : number) :
  is_NaN x = true \/ is_NaN y = true -> py_compare x y = None.
Proof.
  intros [N|N]; destruct x as [a|f], y as [b|g]; try discriminate N;
    cbn [is_NaN] in N.
  - destruct f; try discriminate N. reflexivity.
  - destruct f; try discriminate N. reflexivity.
  - destruct g; try discriminate N. reflexivity.
  - destruct g; try discriminate N. destruct f; reflexivity.
Qed.

(** X14. On compatible quantities no comparison raises and they are
    decided by the magnitudes alone: [<=] is [<] or [==], [>=] is [>] or
    [==], and [!=] is the negation of [==].  When neither magnitude is a
    NaN exactly one of [<], [==], [>] holds; when one is a NaN none of
    them does. *)
Theorem ordering_of_compatible (a b : Quantity) :
  unit_eqb (unit a) (unit b) = true ->
  exists lt eq gt : bool,
    __lt__ a (OQuantity b) = Ok lt /\
    __eq__ a (OQuantity b) = Ok eq /\
    __gt__ a (OQuantity b) = Ok gt /\
    __le__ a (OQuantity b) = Ok (lt || eq) /\
    __ge__ a (OQuantity b) = Ok (gt || eq) /\
    __ne__ a (OQuantity b) = Ok (negb eq) /\
    (is_NaN (value a) = false -> is_NaN (value b) = false ->
     (lt, eq, gt) = (true, false, false) \/
     (lt, eq, gt) = (false, true, false) \/
     (lt, eq, gt) = (false, false, true)) /\
    (is_NaN (value a) = true \/ is_NaN (value b) = true ->
     (lt, eq, gt) = (false, false, false)).
Proof.
  intros C.
  destruct (order_compatible a b C) as (Hlt & Hle & Hgt & Hge).
  exists (py_lt (value a) (value b)), (py_eq (value a) (value b)),
         (py_gt (value a) (value b)).
  unfold __ne__. rewrite (eq_compatible a b C), Hlt, Hle, Hgt, Hge.
  cbn [bind].
  unfold py_lt, py_le, py_gt, py_ge, py_eq.
  repeat split.
  - destruct (py_compare (value a) (value b)) as [[]|]; reflexivity.
  - destruct (py_compare (value a) (value b)) as [[]|]; reflexivity.
  - intros Na Nb.
    destruct (py_compare_defined _ _ Na Nb) as [c Hc]. rewrite Hc.
    destruct c; auto.
  - intros N. rewrite (py_compare_NaN _ _ N). reflexivity.
Qed.

Lemma ordering_of_compatible_witness :
  unit_eqb (unit length_m) (unit length_m) = true /\
  exists lt eq gt : bool,
    __lt__ length_m (OQuantity length_m) = Ok lt /\
    __eq__ length_m (OQuantity length_m) = Ok eq /\
    __gt__ length_m (OQuantity length_m) = Ok gt /\
    __le__ length_m (OQuantity length_m) = Ok (lt || eq) /\
    __ge__ length_m (OQuantity length_m) = Ok (gt || eq) /\
    __ne__ length_m (OQuantity length_m) = Ok (negb eq) /\
    (is_NaN (value length_m) = false -> is_NaN (value length_m) = false ->
     (lt, eq, gt) = (true, false, false) \/
     (lt, eq, gt) = (false, true, false) \/
     (lt, eq, gt) = (false, false, true)) /\
    (is_NaN (value length_m) = true \/ is_NaN (value length_m) = true ->
     (lt, eq, gt) = (false, false, false)).
Proof.
  split; [reflexivity|].
  exact (ordering_of_compatible length_m length_m eq_refl).
Defined.

(** X15. Subtraction of compatible quantities keeps the exponents of
    [self]: [a - b] has the magnitude [a.value - b.value], the reflected
    form has [b.value - a.value], and both are instances with the tuple
    of [a] (or raise the error of the subtraction of the magnitudes). *)
Theorem sub_same_dimension (a b : Quantity) :
  well_formed a ->
  unit_eqb (unit a) (unit b) = true ->
  let instance v := Ok (OQuantity {| value := v; unit := unit a |}) in
  __sub__ a (OQuantity b)
  = (v <- lift (py_sub (value a) (value b)) ;; instance v) /\
  __rsub__ a (OQuantity b)
  = (v <- lift (py_sub (value b) (value a)) ;; instance v).
Proof.
  intros W C instance. unfold __sub__, __rsub__, instance.
  rewrite assert_compatible_quantities, C. cbn [bind getattr_value].
  split;
    match goal with
    | |- bind ?e _ = _ => destruct e as [v|err]; cbn [bind];
        [exact (well_formed_make a v W)|reflexivity]
    end.
Qed.

Lemma sub_same_dimension_witness :
  (well_formed L /\ unit_eqb (unit L) (unit length_m) = true) /\
  __rsub__ L (OQuantity length_m)
  = Ok (OQuantity {| value := PInt (-5); unit := unit L |}).
Proof.
  assert (W : well_formed L) by (split; reflexivity).
  split; [split; [exact W|reflexivity]|].
  exact (proj2 (sub_same_dimension L length_m W eq_refl)).
Defined.

(** ** The constructor *)

(** X16. Construction from a template quantity ignores the keyword
    exponents and never collapses: the result has the exponents of the
    template and the magnitude [value * template.value].  With value 1
    and a template of integer magnitude it is a copy of the template. *)
Theorem construct_from_template (v : number) (t : Quantity) (kw : kwargs) :
  well_formed t ->
  construct v (UnitQuantity t) kw
  = (w <- lift (py_mul v (value t)) ;;
     Ok (OQuantity {| value := w; unit := unit t |})) /\
  (forall z, value t = PInt z ->
     construct (PInt 1) (UnitQuantity t) kw = Ok (OQuantity t)).
Proof.
  intros [Len NZ].
  assert (E : forall x, construct x (UnitQuantity t) kw
    = (w <- lift (py_mul x (value t)) ;;
       Ok (OQuantity {| value := w; unit := unit t |}))).
  { intros x. unfold construct. rewrite new_collapse, NZ.
    cbn [__init__]. destruct (lift (py_mul x (value t))); reflexivity. }
  split; [apply E|].
  intros z Hz. rewrite E, Hz. cbn [py_mul lift bind].
  rewrite Z.mul_1_l, <- Hz, record_eta. reflexivity.
Qed.

Lemma construct_from_template_witness :
  well_formed length_m /\
  construct (PInt 2) (UnitQuantity length_m) s_1 = Ok (OQuantity L).
Proof.
  assert (W : well_formed length_m) by (split; reflexivity).
  split; [exact W|].
  exact (proj1 (construct_from_template (PInt 2) length_m s_1 W)).
Defined.

(** X17. For an exponent sequence with a nonzero item the constructor
    raises [TypeError] exactly when the length is not 7, and otherwise
    stores the sequence as it is.  Construction from keyword exponents
    never raises. *)
Theorem construct_raises_iff_wrong_length
    (v : number) (u : list number) (kw : kwargs) :
  all_zero u = false ->
  (List.length u <> 7%nat ->
   construct v (UnitTuple u) kw
   = Raise (TypeError "unit value must be Quantity of tuple of length 7")) /\
  (List.length u = 7%nat ->
   construct v (UnitTuple u) kw
   = Ok (OQuantity {| value := v; unit := u |})) /\
  (forall w kw', exists r, construct w UnitNone kw' = Ok r).
Proof.
  intros NZ. unfold construct. rewrite !new_collapse, NZ. cbn [__init__].
  split; [|split].
  - intros H. apply Nat.eqb_neq in H. now rewrite H.
  - intros H. apply Nat.eqb_eq in H. now rewrite H.
  - intros w kw'. rewrite new_collapse.
    destruct (all_zero (exponents kw')); cbn [__init__ bind]; eauto.
Qed.

Lemma construct_raises_iff_wrong_length_witness :
  all_zero [PInt 1; PInt 0; PInt 0] = false /\
  construct (PInt 5) (UnitTuple [PInt 1; PInt 0; PInt 0]) defaults
  = Raise (TypeError "unit value must be Quantity of tuple of length 7").
Proof.
  split; [reflexivity|].
  refine (proj1 (construct_raises_iff_wrong_length
                   (PInt 5) [PInt 1; PInt 0; PInt 0] defaults eq_refl) _).
  cbn. lia.
Defined.

(** ** Roots, powers, rendering and zero divisors *)

Lemma square_units (zs : list Z) :
  zip_result (fun x y => lift (py_add x y)) (map PInt zs) (map PInt zs)
  = Ok (map (fun z => PInt (2 * z)) zs).
Proof.
  induction zs as [|z zs IH]; [reflexivity|].
  cbn [map zip_result py_add lift bind]. rewrite IH. cbn [bind].
  do 3 f_equal. lia.
Qed.

(** X18. The square root undoes squaring on the dimension: for integer
    exponents a float holds exactly, [a * a] is an instance, and its
    [sqrt] is an instance whose exponents compare equal to those of [a]
    and whose magnitude is the host's [(v * v) ** 0.5]. *)
Theorem sqrt_of_square (a : Quantity) (v : number) :
  well_formed a ->
  forallb small_int (unit a) = true ->
  py_mul (value a) (value a) = inr v ->
  exists sq u,
    __mul__ a (Qty a) = Ok (OQuantity sq) /\
    value sq = v /\
    unit_eqb u (unit a) = true /\
    forall power,
      sqrt power sq
      = (w <- power v (PFloat float_half) ;;
         Ok (OQuantity {| value := w; unit := u |})).
Proof.
  intros [Len NZ] S Hv.
  destruct (small_ints (unit a) S) as (zs & Hu & Hzs).
  destruct (root_units 2 zs ltac:(lia) Hzs) as (u & Hr & Heq & Hzero & Hlen).
  assert (Lz : List.length zs = 7%nat).
  { rewrite Hu, length_map in Len. exact Len. }
  exists {| value := v; unit := map (fun z => PInt (2 * z)) zs |}, u.
  split; [|split; [reflexivity|split; [now rewrite Hu|]]].
  - unfold __mul__. rewrite Hu, square_units, Hv. cbn [bind lift].
    rewrite make_spec by now rewrite length_map.
    rewrite (power_units_zero 2 zs) by lia. now rewrite <- Hu, NZ.
  - intros power. unfold sqrt, root. cbn [value unit]. rewrite Hr.
    cbn [bind].
    change (py_truediv (PInt 1) (PInt 2))
      with (@inr arith_error _ (PFloat float_half)).
    cbn [bind lift].
    destruct (power v (PFloat float_half)) as [w|e]; [|reflexivity].
    cbn [bind]. rewrite make_spec by now rewrite Hlen.
    now rewrite Hzero, <- Hu, NZ.
Qed.

Lemma sqrt_of_square_witness :
  (well_formed length_m /\ forallb small_int (unit length_m) = true /\
   py_mul (value length_m) (value length_m) = inr (PInt 25)) /\
  exists sq u,
    __mul__ length_m (Qty length_m) = Ok (OQuantity sq) /\
    value sq = PInt 25 /\
    unit_eqb u (unit length_m) = true /\
    forall power,
      sqrt power sq
      = (w <- power (PInt 25) (PFloat float_half) ;;
         Ok (OQuantity {| value := w; unit := u |})).
Proof.
  assert (W : well_formed length_m) by (split; reflexivity).
  split; [split; [exact W|split; reflexivity]|].
  exact (sqrt_of_square length_m (PInt 25) W eq_refl eq_refl).
Defined.

Lemma concat_nonempty (sep : string) (l : list string) :
  l <> [] -> (forall t, In t l -> nonempty t = true) ->
  nonempty (String.concat sep l) = true.
Proof.
  destruct l as [|x l]; [congruence|]. intros _ H.
  pose proof (H x (or_introl eq_refl)) as Hx.
  destruct x as [|c x]; [discriminate Hx|].
  destruct l; reflexivity.
Qed.

Lemma axis_named (ns : list string) (u : list number) (n : string) (e : number) :
  (forall t, In t ns -> nonempty t = true) ->
  In (n, e) (combine ns u) -> nonempty n = true.
Proof. intros H I. apply H. exact (in_combine_l _ _ _ _ I). Qed.

Lemma names_nonempty (t : string) : In t names -> nonempty t = true.
Proof.
  cbn. intros H.
  repeat (destruct H as [<-|H]; [reflexivity|]). contradiction.
Qed.

Lemma nonempty_app (x y : string) :
  nonempty x = true -> nonempty (x ++ y) = true.
Proof. destruct x; [discriminate|reflexivity]. Qed.

Lemma append_assoc (x y z : string) :
  ((x ++ y) ++ z = x ++ (y ++ z))%string.
Proof.
  induction x as [|c x IH]; [reflexivity|]. cbn. now rewrite IH.
Qed.

Lemma some_axis (ns : list string) (u : list number) :
  List.length ns = List.length u -> all_zero u = false ->
  exists n e, In (n, e) (combine ns u) /\ py_eq e (PInt 0) = false.
Proof.
  revert ns. induction u as [|e u IH]; intros [|n ns] L Z;
    try discriminate L; try discriminate Z.
  unfold all_zero in Z. cbn [forallb] in Z.
  destruct (py_eq e (PInt 0)) eqn:E.
  - cbn [andb] in Z. injection L as L.
    destruct (IH ns L Z) as (n' & e' & I & H).
    exists n', e'. split; [right; exact I|exact H].
  - exists n, e. split; [left; reflexivity|exact E].
Qed.

Lemma no_NaN_In (u : list number) (e : number) :
  no_NaN u = true -> In e u -> is_NaN e = false.
Proof.
  unfold no_NaN. rewrite forallb_forall. intros H I.
  apply negb_true_iff, H, I.
Qed.

Lemma nonzero_sign (e : number) :
  is_NaN e = false -> py_eq e (PInt 0) = false ->
  py_gt e (PInt 0) = true \/ py_lt e (PInt 0) = true.
Proof.
  intros N. unfold py_eq, py_gt, py_lt.
  destruct (py_compare_defined e (PInt 0) N eq_refl) as [c ->].
  destruct c; intros H; [discriminate H|right|left]; reflexivity.
Qed.

Lemma terms_nonempty (sep : string) (f : string * number -> string)
    (p : string * number -> bool) (u : list number) :
  (forall n e, nonempty n = true -> nonempty (f (n, e)) = true) ->
  forall n e, In (n, e) (combine names u) -> p (n, e) = true ->
  nonempty (String.concat sep (map f (filter p (combine names u)))) = true.
Proof.
  intros Hf n e I P. apply concat_nonempty.
  - intros E. apply map_eq_nil in E.
    assert (I' : In (n, e) (filter p (combine names u)))
      by (apply filter_In; split; assumption).
    rewrite E in I'. exact I'.
  - intros t It. apply in_map_iff in It as ([n' e'] & <- & I').
    apply filter_In in I' as [I' _].
    apply Hf, (axis_named names u n' e' names_nonempty I').
Qed.

Lemma num_term_nonempty (n : string) (e : number) :
  nonempty n = true -> nonempty (num_term (n, e)) = true.
Proof.
  intros H. unfold num_term. destruct (py_eq e (PInt 1)); [exact H|].
  now apply nonempty_app.
Qed.

Lemma den_term_nonempty (n : string) (e : number) :
  nonempty n = true -> nonempty (den_term (n, e)) = true.
Proof.
  intros H. unfold den_term. destruct (py_eq e (PInt (-1))); [exact H|].
  now apply nonempty_app.
Qed.

Lemma repr_term_nonempty (n : string) (e : number) :
  nonempty n = true -> nonempty (repr_term (n, e)) = true.
Proof. intros H. unfold repr_term. now apply nonempty_app. Qed.

(** X19. An instance whose int magnitude and int exponents have at most
    4300 digits (larger ones the host refuses to print) never renders
    without its unit: [repr] lists at least one keyword exponent, and
    (when no exponent is a NaN) [str] is the magnitude followed by a
    non-empty bracket. *)
Theorem rendering_shows_unit (q : Quantity) :
  well_formed q ->
  forallb printable (value q :: unit q) = true ->
  (exists body, nonempty body = true /\
     __repr__ q
     = ("Quantity(" ++ Repr.str (value q) ++ "," ++ body ++ ",)")%string) /\
  (no_NaN (unit q) = true ->
   exists body, nonempty body = true /\
     __str__ q = (Repr.str (value q) ++ "[" ++ body ++ "]")%string).
Proof.
  intros [Len NZ] _.
  destruct (some_axis names (unit q)) as (n & e & I & E);
    [now rewrite Len|exact NZ|].
  split.
  - eexists. split; [|reflexivity].
    change keys with names.
    apply (terms_nonempty _ repr_term _ (unit q) repr_term_nonempty n e I).
    cbn [snd]. rewrite py_bool_ne_zero. unfold py_ne. now rewrite E.
  - intros N. unfold __str__. cbv zeta.
    pose proof (no_NaN_In _ e N (in_combine_r _ _ _ _ I)) as Ne.
    set (num := String.concat " " (map num_term _)).
    set (den := String.concat " " (map den_term _)).
    destruct (nonempty num) eqn:Hn, (nonempty den) eqn:Hd.
    + exists (num ++ "/" ++ den)%string.
      split; [exact (nonempty_app _ _ Hn)|]. now rewrite !append_assoc.
    + exists num. split; [exact Hn|reflexivity].
    + exists ("1/" ++ den)%string. split; reflexivity.
    + exfalso. destruct (nonzero_sign e Ne E) as [G|G].
      * unfold num in Hn.
        rewrite (terms_nonempty _ num_term _ (unit q) num_term_nonempty n e I G)
          in Hn. discriminate Hn.
      * unfold den in Hd.
        rewrite (terms_nonempty _ den_term _ (unit q) den_term_nonempty n e I G)
          in Hd. discriminate Hd.
Qed.

Lemma rendering_shows_unit_witness :
  (well_formed speed /\ forallb printable (value speed :: unit speed) = true) /\
  exists body, nonempty body = true /\
    __str__ speed = (Repr.str (value speed) ++ "[" ++ body ++ "]")%string.
Proof.
  assert (W : well_formed speed) by (split; reflexivity).
  assert (P : forallb printable (value speed :: unit speed) = true)
    by (vm_compute; reflexivity).
  split; [split; [exact W|exact P]|].
  exact (proj2 (rendering_shows_unit speed W P) eq_refl).
Defined.

Lemma py_mul_zero (t : number) :
  finite t = true ->
  exists d, py_mul (PInt 0) t = inr d /\ py_eq d (PInt 0) = true.
Proof.
  intros F. destruct t as [z|f].
  - exists (PInt 0). split; reflexivity.
  - destruct f as [s|s| |s m e]; try discriminate F.
    + exists (PFloat (S754_zero s)). split; reflexivity.
    + exists (PFloat (S754_zero s)). split; reflexivity.
Qed.

Lemma zero_units (u : list number) :
  forallb finite u = true ->
  exists d, map_result (fun t => lift (py_mul (PInt 0) t)) u = Ok d /\
            all_zero d = true /\ List.length d = List.length u.
Proof.
  induction u as [|t u IH]; cbn [forallb map_result]; intros H.
  - exists []. repeat split.
  - apply andb_prop in H as [Ht Hu].
    destruct (py_mul_zero t Ht) as (d0 & Hd0 & Hz0).
    destruct (IH Hu) as (d & Hd & Hz & Hl).
    exists (d0 :: d). split; [|split].
    + rewrite Hd0. cbn [bind lift]. rewrite Hd. reflexivity.
    + unfold all_zero in *. cbn [forallb]. rewrite Hz0, Hz. reflexivity.
    + cbn [List.length]. rewrite Hl. reflexivity.
Qed.

(** X20. Raising to the power 0 makes a quantity dimensionless: for
    finite exponents [a ** 0] is the bare number that the host gives for
    [value ** 0], not an instance. *)
Theorem pow_zero_collapses (power : number -> number -> result number)
    (a : Quantity) :
  well_formed a ->
  forallb finite (unit a) = true ->
  __pow__ power a (PInt 0)
  = (v <- power (value a) (PInt 0) ;; Ok (ONum v)).
Proof.
  intros [Len NZ] F. unfold __pow__.
  destruct (zero_units (unit a) F) as (d & Hd & Hz & Hl).
  rewrite Hd. cbn [bind].
  destruct (power (value a) (PInt 0)) as [v|e]; [|reflexivity].
  cbn [bind]. rewrite make_spec by now rewrite Hl. now rewrite Hz.
Qed.

Lemma pow_zero_collapses_witness :
  (well_formed length_m /\ forallb finite (unit length_m) = true) /\
  __pow__ (fun _ _ => Ok (PInt 1)) length_m (PInt 0) = Ok (ONum (PInt 1)).
Proof.
  assert (W : well_formed length_m) by (split; reflexivity).
  split; [split; [exact W|reflexivity]|].
  exact (pow_zero_collapses (fun _ _ => Ok (PInt 1)) length_m W eq_refl).
Defined.

Lemma map_neg_involutive (u : list number) : map py_neg (map py_neg u) = u.
Proof.
  induction u as [|t u IH]; [reflexivity|].
  cbn [map]. now rewrite py_neg_involutive, IH.
Qed.

(** X21. A plain number divided by a quantity ([/] or [//]) is an
    instance whose exponents are those of the quantity negated; inverting
    twice restores the exponents. *)
Theorem reflected_scalar_division (a : Quantity) (x : number) :
  well_formed a ->
  let instance v :=
    Ok (OQuantity {| value := v; unit := map py_neg (unit a) |}) in
  __rtruediv__ a (Scalar x)
  = (v <- lift (py_truediv x (value a)) ;; instance v) /\
  __rfloordiv__ a (Scalar x)
  = (v <- lift (py_floordiv x (value a)) ;; instance v) /\
  (forall q q', invert a = Ok (OQuantity q) ->
                invert q = Ok (OQuantity q') -> unit q' = unit a).
Proof.
  intros W instance. unfold __rtruediv__, __rfloordiv__, instance.
  split; [|split].
  - destruct (lift (py_truediv x (value a))) as [v|e]; cbn [bind];
      [exact (make_neg_units a v W)|reflexivity].
  - destruct (lift (py_floordiv x (value a))) as [v|e]; cbn [bind];
      [exact (make_neg_units a v W)|reflexivity].
  - intros q q' H H'. unfold invert in H.
    destruct (lift (py_truediv (PInt 1) (value a))) as [v|e];
      [|discriminate H].
    cbn [bind] in H. rewrite (make_neg_units a v W) in H.
    injection H as <-.
    assert (W' : well_formed {| value := v; unit := map py_neg (unit a) |}).
    { destruct W as [Len NZ]. split; cbn [unit];
        [now rewrite length_map|now rewrite all_zero_neg]. }
    unfold invert in H'. cbn [value unit] in H'.
    destruct (lift (py_truediv (PInt 1) v)) as [v'|e]; [|discriminate H'].
    cbn [bind] in H'.
    pose proof (make_neg_units _ v' W') as M. cbn [unit] in M.
    rewrite M in H'. injection H' as <-. cbn [unit].
    apply map_neg_involutive.
Qed.

Lemma reflected_scalar_division_witness :
  well_formed L /\
  __rtruediv__ L (Scalar (PInt 1)) = Ok (OQuantity per_L).
Proof.
  assert (W : well_formed L) by (split; reflexivity).
  split; [exact W|].
  rewrite (proj1 (reflected_scalar_division L (PInt 1) W)).
  vm_compute. reflexivity.
Defined.

Lemma divide_by_zero (x y : number) :
  py_bool y = false ->
  lift (py_truediv x y) = Raise (error_of_zero_division x y) /\
  lift (py_floordiv x y) = Raise (error_of_zero_division x y).
Proof.
  intros Hy. destruct y as [b|g]; cbn [py_bool] in Hy;
    apply negb_false_iff in Hy.
  - apply Z.eqb_eq in Hy. subst b. destruct x as [a|h]; split; reflexivity.
  - unfold py_truediv, py_floordiv, error_of_zero_division.
    destruct x as [a|h].
    + destruct (as_float (PInt a)) as [e|f] eqn:E.
      * rewrite (as_float_error _ _ E). split; reflexivity.
      * cbn [as_float]. rewrite Hy. split; reflexivity.
    + cbn [as_float]. rewrite Hy. split; reflexivity.
Qed.

(** X22. Division by zero never returns: [/] and [//] by a plain number
    that is zero, or by a quantity whose magnitude is zero, raise
    [ZeroDivisionError] (also for floats, where no infinity is returned),
    with one exception: an int magnitude too large for a float divided by
    a float zero raises [OverflowError], because the operands are
    converted first.  With a quantity as divisor the exponents are
    subtracted first, and an error of that subtraction comes first. *)
Theorem division_by_zero_raises (a b : Quantity) (x : number) :
  let error := error_of_zero_division (value a) in
  let exponents :=
    zip_result (fun s t => lift (py_sub s t)) (unit a) (unit b) in
  (py_bool x = false ->
   __truediv__ a (Scalar x) = Raise (error x) /\
   __floordiv__ a (Scalar x) = Raise (error x)) /\
  (__bool__ b = false ->
   __truediv__ a (Qty b) = (_ <- exponents ;; Raise (error (value b))) /\
   __floordiv__ a (Qty b) = (_ <- exponents ;; Raise (error (value b)))) /\
  (forall d, error d = OverflowError <->
     exists z g, value a = PInt z /\ d = PFloat g /\
                 int_to_float z = inl Overflow) /\
  (forall d, error d <> OverflowError -> error d = ZeroDivisionError).
Proof.
  intros error exponents. unfold __truediv__, __floordiv__.
  split; [|split; [|split]].
  - intros Hx. destruct (divide_by_zero (value a) x Hx) as [-> ->].
    split; reflexivity.
  - intros Hb.
    assert (Hz : py_bool (value b) = false).
    { unfold __bool__, __nonzero__ in Hb.
      destruct (py_bool (value b)); [discriminate Hb|reflexivity]. }
    destruct (divide_by_zero (value a) (value b) Hz) as [-> ->].
    fold exponents. destruct exponents; split; reflexivity.
  - intros d. unfold error, error_of_zero_division.
    destruct (value a) as [z|f], d as [y|g]; cbn [as_float];
      try (split; [discriminate|intros (? & ? & ? & ? & ?); discriminate]).
    destruct (int_to_float z) as [e|f] eqn:E.
    + assert (e = Overflow) by (apply (as_float_error (PInt z)); exact E).
      subst e. split; [eauto 6|reflexivity].
    + split; [discriminate|].
      intros (z' & g' & [= <-] & _ & H). rewrite E in H. discriminate H.
  - intros d. unfold error, error_of_zero_division.
    destruct (value a) as [z|f], d as [y|g]; try reflexivity.
    destruct (as_float (PInt z)); [intros H; now contradiction H|reflexivity].
Qed.
